(** * FXOS8700 accelerometer / magnetometer driver

    A shallow embedding of [nxp_imu/FXOS8700.py] and the properties of its
    construction sequence and of its register decoding.

    Python [int] is [Z]; Python [float] is IEEE binary64, i.e. Rocq's
    primitive [float]; a raised exception is the [Raise] branch of [result];
    the driver object and the bus it talks to are threaded explicitly. *)

From Stdlib Require Import ZArith List Bool Lia.
From Stdlib Require Import Floats Uint63.
Import ListNotations.

Set Warnings "-inexact-float".

Local Open Scope Z_scope.

(** ** Module constants (lines 10-46) *)

Definition FXOS8700_ADDRESS : Z := 0x1E.
Definition FXOS8700_ID : Z := 0xC7.

Definition FXOS8700_REGISTER_STATUS : Z := 0x00.
Definition FXOS8700_REGISTER_OUT_X_MSB : Z := 0x01.
Definition FXOS8700_REGISTER_OUT_X_LSB : Z := 0x02.
Definition FXOS8700_REGISTER_OUT_Y_MSB : Z := 0x03.
Definition FXOS8700_REGISTER_OUT_Y_LSB : Z := 0x04.
Definition FXOS8700_REGISTER_OUT_Z_MSB : Z := 0x05.
Definition FXOS8700_REGISTER_OUT_Z_LSB : Z := 0x06.
Definition FXOS8700_REGISTER_WHO_AM_I : Z := 0x0D.
Definition FXOS8700_REGISTER_XYZ_DATA_CFG : Z := 0x0E.
Definition FXOS8700_REGISTER_CTRL_REG1 : Z := 0x2A.
Definition FXOS8700_REGISTER_CTRL_REG2 : Z := 0x2B.
Definition FXOS8700_REGISTER_TEMPERATURE : Z := 0x51.
Definition FXOS8700_REGISTER_MCTRL_REG1 : Z := 0x5B.

Definition ACCEL_RANGE_2G : Z := 0x00.
Definition ACCEL_RANGE_4G : Z := 0x01.
Definition ACCEL_RANGE_8G : Z := 0x02.

Definition ACCEL_MG_LSB_2G : float := 0.000244%float.
Definition ACCEL_MG_LSB_4G : float := 0.000488%float.
Definition ACCEL_MG_LSB_8G : float := 0.000976%float.
Definition MAG_UT_LSB : float := 0.1%float.

(** ** Observable effects and exceptions *)

(** What the driver does to the outside world, in program order: the calls
    it makes on the bus, and the assignments to [self.scale]. *)
Inductive event : Type :=
| EvOpen (address bus : Z)        (* I2C.__init__(self, address, bus=bus) *)
| EvRead8 (reg : Z)               (* self.read8(reg) *)
| EvWrite8 (reg value : Z)        (* self.write8(reg, value) *)
| EvReadBlock (reg size : Z)      (* self.read_block(reg, size) *)
| EvSetScale (s : float).         (* self.scale = s *)

(** The exceptions that can leave a method of the driver. *)
Inductive exn : Type :=
| OSError (during : event)        (* raised inside the bus transport *)
| Exception_talking (address : Z) (* line 68: 'Error talking to FXOS8700 at' *)
| Exception_range (gs : option Z) (* line 88: 'Invalide accel range: {}' *)
| ValueError                      (* bytearray(): byte must be in range(0, 256) *)
| struct_error                    (* struct.unpack: buffer of the wrong size *)
| TypeError.                      (* int * None *)

Inductive result (A : Type) : Type :=
| Ok (a : A)
| Raise (e : exn).
Arguments Ok {A} a.
Arguments Raise {A} e.

(** The error names of the specification, and the exception of the code that
    each one stands for.  The code has no exception classes of its own; this
    table is the only place where the specification's names enter. *)
Inductive spec_error : Type :=
| IdentityMismatch
| InvalidConfiguration
| BusWriteFailed
| BusReadFailed.

Definition spec_error_of (e : exn) : option spec_error :=
  match e with
  | Exception_talking _ => Some IdentityMismatch
  | Exception_range _ => Some InvalidConfiguration
  | OSError (EvWrite8 _ _) => Some BusWriteFailed
  | OSError (EvRead8 _) => Some BusReadFailed
  | OSError (EvReadBlock _ _) => Some BusReadFailed
  | struct_error => Some BusReadFailed
  | _ => None
  end.

(** ** The bus transport

    [nxp_imu/I2C.py], the base class of the driver, is not part of the
    sources at hand.  Its four operations are taken as parameters: each one
    acts on the state of the bus and of the device behind it, and either
    returns ([Some]) or raises ([None]). *)
Class I2C (Dev : Type) : Type := {
  bus_open : Z -> Z -> Dev -> option unit * Dev;
  bus_read8 : Z -> Dev -> option Z * Dev;
  bus_write8 : Z -> Z -> Dev -> option unit * Dev;
  bus_read_block : Z -> Z -> Dev -> option (list Z) * Dev
}.

(** ** Python primitives used by the driver *)

(** [int -> float] conversion, exact below 2^53 (the driver only converts
    16-bit values). *)
Definition float_of_int (z : Z) : float :=
  if z <? 0 then PrimFloat.opp (PrimFloat.of_uint63 (Uint63.of_Z (- z)))
  else PrimFloat.of_uint63 (Uint63.of_Z z).

(** [x * y] with [x] an int: [y] a float, or [None]. *)
Definition int_mul (x : Z) (y : option float) : result float :=
  match y with
  | Some f => Ok (PrimFloat.mul (float_of_int x) f)
  | None => Raise TypeError
  end.

(** The two's complement reading of a [bits]-wide unsigned value (the
    [twos_comp] of lines 49-53, which is what struct's signed formats do). *)
Definition twos_comp (val bits : Z) : Z :=
  if negb (Z.land val (Z.shiftl 1 (bits - 1)) =? 0)
  then val - Z.shiftl 1 bits
  else val.

(** [bytearray(data)] for a list of ints. *)
Definition bytearray (data : list Z) : result (list Z) :=
  if forallb (fun b => (0 <=? b) && (b <? 256)) data
  then Ok data else Raise ValueError.

(** [struct.unpack('b', data)]: one signed byte. *)
Definition struct_unpack_b (data : list Z) : result (list Z) :=
  match data with
  | [b] => Ok [twos_comp b 8]
  | _ => Raise struct_error
  end.

(** Consecutive big-endian signed 16-bit fields. *)
Fixpoint be_shorts (data : list Z) : list Z :=
  match data with
  | hi :: lo :: rest => twos_comp (hi * 256 + lo) 16 :: be_shorts rest
  | _ => []
  end.

(** [struct.unpack('>hhhhhh', data)]: exactly 12 bytes, six fields. *)
Definition struct_unpack_6h (data : list Z) : result (list Z) :=
  if (length data =? 12)%nat then Ok (be_shorts data) else Raise struct_error.

(** A list comprehension whose element expression can raise. *)
Fixpoint comprehension {A B : Type} (f : A -> result B) (l : list A)
  : result (list B) :=
  match l with
  | [] => Ok []
  | x :: l' =>
      match f x with
      | Raise e => Raise e
      | Ok y =>
          match comprehension f l' with
          | Raise e => Raise e
          | Ok ys => Ok (y :: ys)
          end
      end
  end.

(** ** The driver object *)

Module FXOS8700.

Section Driver.

Context {Dev : Type} `{I2C Dev}.

(** [self]: the bus handle, the [scale] attribute (class default [None],
    line 57), and the effects so far. *)
Record self : Type := {
  dev : Dev;
  scale : option float;
  trace : list event
}.

Definition M (A : Type) : Type := self -> result A * self.

Definition ret {A : Type} (a : A) : M A := fun s => (Ok a, s).

Definition raise {A : Type} (e : exn) : M A := fun s => (Raise e, s).

Definition bind {A B : Type} (m : M A) (k : A -> M B) : M B :=
  fun s =>
    match m s with
    | (Ok a, s') => k a s'
    | (Raise e, s') => (Raise e, s')
    end.

Definition lift {A : Type} (r : result A) : M A := fun s => (r, s).

(** The object after a call [ev] on the transport that left the bus in
    state [dv]. *)
Definition after_call (ev : event) (dv : Dev) (s : self) : self :=
  {| dev := dv; scale := scale s; trace := trace s ++ [ev] |}.

(** One call on the transport: recorded, then answered by the bus. *)
Definition call {A : Type} (ev : event) (op : Dev -> option A * Dev) : M A :=
  fun s =>
    let (r, dv) := op (dev s) in
    let s' := after_call ev dv s in
    match r with
    | Some a => (Ok a, s')
    | None => (Raise (OSError ev), s')
    end.

Definition I2C_init (address bus : Z) : M unit :=
  call (EvOpen address bus) (bus_open address bus).

Definition read8 (reg : Z) : M Z :=
  call (EvRead8 reg) (bus_read8 reg).

Definition write8 (reg value : Z) : M unit :=
  call (EvWrite8 reg value) (bus_write8 reg value).

Definition read_block (reg size : Z) : M (list Z) :=
  call (EvReadBlock reg size) (bus_read_block reg size).

(** [self.scale = v] *)
Definition set_scale (v : float) : M unit :=
  fun s => (Ok tt, {| dev := dev s; scale := Some v;
                      trace := trace s ++ [EvSetScale v] |}).

(** [self.scale] *)
Definition get_scale : M (option float) := fun s => (Ok (scale s), s).

End Driver.

Arguments self Dev : clear implicits.
Arguments M Dev A : clear implicits.

Declare Scope py_scope.
Delimit Scope py_scope with py.
Notation "x <- m ;; k" := (bind m (fun x => k))
  (at level 100, m at next level, right associativity) : py_scope.
Notation "m ;; k" := (bind m (fun _ => k))
  (at level 100, right associativity) : py_scope.

Section Methods.

Context {Dev : Type} `{I2C Dev}.

Local Open Scope py_scope.

(** [gs == k], for the optional argument [gs]. *)
Definition gs_eq (gs : option Z) (k : Z) : bool :=
  match gs with
  | Some v => v =? k
  | None => false
  end.

Definition gs_is_None (gs : option Z) : bool :=
  match gs with
  | Some _ => false
  | None => true
  end.

(** Lines 112-121. *)
Definition temperature : M Dev Z :=
  t <- read8 FXOS8700_REGISTER_TEMPERATURE ;;
  let data := [t] in
  data <- lift (bytearray data) ;;
  r <- lift (struct_unpack_b data) ;;
  ret (nth 0 r 0).

(** Lines 59-107.  [print] is not modelled; the [verbose] branch still reads
    the temperature register. *)
Definition __init__ (gs : option Z) (bus : Z) (verbose : bool)
  : M Dev unit :=
  I2C_init FXOS8700_ADDRESS bus ;;
  id <- read8 FXOS8700_REGISTER_WHO_AM_I ;;
  if negb (id =? FXOS8700_ID)
  then raise (Exception_talking FXOS8700_ADDRESS)
  else
    write8 FXOS8700_REGISTER_CTRL_REG1 0 ;;
    (if gs_eq gs 2 || gs_is_None gs then
       write8 FXOS8700_REGISTER_XYZ_DATA_CFG ACCEL_RANGE_2G ;;
       set_scale ACCEL_MG_LSB_2G
     else if gs_eq gs 4 then
       write8 FXOS8700_REGISTER_XYZ_DATA_CFG ACCEL_RANGE_4G ;;
       set_scale ACCEL_MG_LSB_4G
     else if gs_eq gs 8 then
       write8 FXOS8700_REGISTER_XYZ_DATA_CFG ACCEL_RANGE_8G ;;
       set_scale ACCEL_MG_LSB_8G
     else
       raise (Exception_range gs)) ;;
    write8 FXOS8700_REGISTER_CTRL_REG2 0x02 ;;
    write8 FXOS8700_REGISTER_MCTRL_REG1 0x00 ;;
    write8 FXOS8700_REGISTER_CTRL_REG1 0x5 ;;
    if verbose then (_ <- temperature ;; ret tt) else ret tt.

(** Lines 123-138. *)
Definition get : M Dev (list float * list float) :=
  data <- read_block 0x1 12 ;;
  data <- lift (bytearray data) ;;
  data <- lift (struct_unpack_6h data) ;;
  let d := firstn 3 data in
  s <- get_scale ;;
  accel <- lift (comprehension (fun x => int_mul (Z.shiftr x 2) s) d) ;;
  let d := skipn 3 data in
  let mag := map (fun x => PrimFloat.mul (float_of_int x) MAG_UT_LSB) d in
  ret (accel, mag).

(** [FXOS8700(gs, bus, verbose)] on a fresh object: [scale] is the class
    default [None]; the defaults are [gs=None], [bus=1], [verbose=False]. *)
Definition fresh (dv : Dev) : self Dev :=
  {| dev := dv; scale := None; trace := [] |}.

Definition construct (gs : option Z) (bus : Z) (verbose : bool) (dv : Dev)
  : result unit * self Dev :=
  __init__ gs bus verbose (fresh dv).

End Methods.

End FXOS8700.

Import FXOS8700.

(** ** Reading a trace *)

(** The register writes of a trace, in the order they were issued. *)
Fixpoint writes (t : list event) : list (Z * Z) :=
  match t with
  | [] => []
  | EvWrite8 reg value :: t' => (reg, value) :: writes t'
  | _ :: t' => writes t'
  end.

(** The values assigned to [self.scale], in order. *)
Fixpoint scale_sets (t : list event) : list float :=
  match t with
  | [] => []
  | EvSetScale v :: t' => v :: scale_sets t'
  | _ :: t' => scale_sets t'
  end.

(** ** What the specification says, in its own terms *)

(** The three full-scale ranges, with their register code and their scale. *)
Inductive RangeSetting : Type := Range2G | Range4G | Range8G.

Definition range_code (r : RangeSetting) : Z :=
  match r with
  | Range2G => 0
  | Range4G => 1
  | Range8G => 2
  end.

Definition range_scale (r : RangeSetting) : float :=
  match r with
  | Range2G => 0.000244%float
  | Range4G => 0.000488%float
  | Range8G => 0.000976%float
  end.

(** The range requested by the argument [gs]; an omitted argument means 2. *)
Definition requested_range (gs : option Z) : option RangeSetting :=
  match gs with
  | None => Some Range2G
  | Some v =>
      if v =? 2 then Some Range2G
      else if v =? 4 then Some Range4G
      else if v =? 8 then Some Range8G
      else None
  end.

(** The five configuration writes, as (register address, value). *)
Definition configuration_sequence (code : Z) : list (Z * Z) :=
  [ (0x2A, 0); (0x0E, code); (0x2B, 0x02); (0x5B, 0x00); (0x2A, 0x05) ].

(** The signed reading of a [2^bits]-periodic value: the one integer of
    [-2^(bits-1) .. 2^(bits-1) - 1] congruent to [u]. *)
Definition signed (bits : Z) (u : Z) : Z :=
  (u + 2 ^ (bits - 1)) mod 2 ^ bits - 2 ^ (bits - 1).

(** A big-endian signed 16-bit field. *)
Definition field16 (hi lo : Z) : Z := signed 16 (256 * hi + lo).

(** Acceleration in g: the 14-bit sample (the field without its two padding
    bits, rounding towards minus infinity) times the scale. *)
Definition accel_g (sc : float) (raw : Z) : float :=
  PrimFloat.mul (float_of_int (raw / 4)) sc.

(** Magnetic field in microtesla: the whole field times 0.1. *)
Definition mag_uT (raw : Z) : float :=
  PrimFloat.mul (float_of_int raw) 0.1%float.

Definition is_byte (b : Z) : Prop := 0 <= b < 256.

(** Two integers that agree on every bit except, possibly, the lowest two. *)
Definition same_above_padding (x y : Z) : Prop :=
  forall n, 2 <= n -> Z.testbit x n = Z.testbit y n.

(** The integers [lo], [lo + 1], ..., [lo + n - 1]. *)
Fixpoint Z_interval (lo : Z) (n : nat) : list Z :=
  match n with
  | O => []
  | S n' => lo :: Z_interval (lo + 1) n'
  end.

(** ** Calling the methods of a constructed driver *)

Inductive method : Type := CallTemperature | CallGet.

Section Calls.

Context {Dev : Type} `{I2C Dev}.

(** One call; the outcome keeps only the exception, if any. *)
Definition call_method (m : method) (s : self Dev) : option exn * self Dev :=
  match m with
  | CallTemperature =>
      match temperature s with
      | (Ok _, s') => (None, s')
      | (Raise e, s') => (Some e, s')
      end
  | CallGet =>
      match get s with
      | (Ok _, s') => (None, s')
      | (Raise e, s') => (Some e, s')
      end
  end.

Fixpoint call_methods (ms : list method) (s : self Dev)
  : list (option exn) * self Dev :=
  match ms with
  | [] => ([], s)
  | m :: ms' =>
      let (o, s1) := call_method m s in
      let (os, s2) := call_methods ms' s1 in
      (o :: os, s2)
  end.

End Calls.

(** ** A device to run the driver on

    A register file that remembers the writes it receives, answers a burst
    read with a prepared block, and never raises. *)
Record mock : Type := {
  who_am_i : Z;
  temp : Z;
  block : list Z;
  received : list (Z * Z)
}.

Definition mock_read8 (reg : Z) (m : mock) : option Z * mock :=
  (Some (if reg =? 0x0D then who_am_i m
         else if reg =? 0x51 then temp m
         else 0), m).

Definition mock_write8 (reg value : Z) (m : mock) : option unit * mock :=
  (Some tt, {| who_am_i := who_am_i m; temp := temp m; block := block m;
               received := received m ++ [(reg, value)] |}).

#[global] Instance mock_I2C : I2C mock := {
  bus_open := fun _ _ m => (Some tt, m);
  bus_read8 := mock_read8;
  bus_write8 := mock_write8;
  bus_read_block := fun _ _ m => (Some (block m), m)
}.

(** A genuine chip at 25 degrees, holding the sample X = 0x0190,
    Y = 0xFE70, Z = 0 and the magnetic field X = 0x03E8, Y = 0xFC18, Z = 0. *)
Definition chip : mock :=
  {| who_am_i := 0xC7; temp := 0x19;
     block := [0x01; 0x90; 0xFE; 0x70; 0x00; 0x00;
               0x03; 0xE8; 0xFC; 0x18; 0x00; 0x00];
     received := [] |}.

(** The same chip with the low two bits of each acceleration field set. *)
Definition chip_padded : mock :=
  {| who_am_i := 0xC7; temp := 0xFF;
     block := [0x01; 0x93; 0xFE; 0x71; 0x00; 0x02;
               0x03; 0xE8; 0xFC; 0x18; 0x00; 0x00];
     received := [] |}.

(** Another device answering at the same address. *)
Definition stranger : mock :=
  {| who_am_i := 0xC4; temp := 0; block := []; received := [] |}.

(** A chip whose burst read comes back seven bytes long. *)
Definition chip_short : mock :=
  {| who_am_i := 0xC7; temp := 0x19;
     block := [0x01; 0x90; 0xFE; 0x70; 0x00; 0x00; 0x03];
     received := [] |}.

(** A driver object as a successful construction on [m] with the default
    arguments leaves it. *)
Definition constructed (m : mock) : self mock :=
  snd (construct None 1 false m).

(** The one bus transaction a method performs (lines 117 and 127). *)
Definition bus_read_of (m : method) : event :=
  match m with
  | CallTemperature => EvRead8 FXOS8700_REGISTER_TEMPERATURE
  | CallGet => EvReadBlock 0x1 12
  end.

(** The full scale of a range, in g, and its ratio to the 2G full scale. *)
Definition range_g (r : RangeSetting) : float :=
  match r with
  | Range2G => 2%float
  | Range4G => 4%float
  | Range8G => 8%float
  end.

Definition range_factor (r : RangeSetting) : Z :=
  match r with
  | Range2G => 1
  | Range4G => 2
  | Range8G => 4
  end.

(** What a sample and its acceleration have to do with one another: the
    acceleration lies inside the full scale and has the sign of the
    sample. *)
Definition sample_in_range (full : float) (q : Z) (a : float) : bool :=
  PrimFloat.leb (PrimFloat.opp full) a && PrimFloat.ltb a full
  && (if q <? 0 then PrimFloat.ltb a 0%float
      else if q =? 0 then PrimFloat.eqb a 0%float
      else PrimFloat.ltb 0%float a).

(** A device with one register that refuses writes: a write to [locked]
    raises, everything else is the mock's. *)
Record write_protected : Type := {
  behind : mock;
  locked : Z
}.

Definition protected_write8 (reg value : Z) (d : write_protected)
  : option unit * write_protected :=
  if reg =? locked d then (None, d)
  else (Some tt, {| behind := snd (mock_write8 reg value (behind d));
                    locked := locked d |}).

#[global] Instance write_protected_I2C : I2C write_protected := {
  bus_open := fun _ _ d => (Some tt, d);
  bus_read8 := fun reg d => (fst (mock_read8 reg (behind d)), d);
  bus_write8 := protected_write8;
  bus_read_block := fun _ _ d => (Some (block (behind d)), d)
}.

(** The chip with its CTRL_REG2 stuck. *)
Definition chip_stuck : write_protected :=
  {| behind := chip; locked := 0x2B |}.

(** A chip holding, for the 4G range, the acceleration [chip] holds for the
    2G range: X = 0x00C8, Y = 0xFF38, Z = 0. *)
Definition chip_4g : mock :=
  {| who_am_i := 0xC7; temp := 0x19;
     block := [0x00; 0xC8; 0xFF; 0x38; 0x00; 0x00;
               0x03; 0xE8; 0xFC; 0x18; 0x00; 0x00];
     received := [] |}.

(** * Properties *)

(** ** Two's complement *)

Lemma land_pow2_eqb (v k : Z) :
  0 <= k -> (Z.land v (2 ^ k) =? 0) = negb (Z.testbit v k).
Proof.
  intros Hk.
  assert (E : Z.land v (2 ^ k) = if Z.testbit v k then 2 ^ k else 0).
  { apply Z.bits_inj'; intros n Hn.
    rewrite Z.land_spec, Z.pow2_bits_eqb by assumption.
    destruct (Z.eqb_spec k n) as [->|Hne].
    - destruct (Z.testbit v n) eqn:T; simpl.
      + rewrite Z.pow2_bits_eqb, Z.eqb_refl by assumption. reflexivity.
      + rewrite Z.bits_0. reflexivity.
    - rewrite andb_false_r.
      destruct (Z.testbit v k).
      + rewrite Z.pow2_bits_eqb by assumption.
        symmetry. apply Z.eqb_neq. assumption.
      + rewrite Z.bits_0. reflexivity. }
  rewrite E. destruct (Z.testbit v k); simpl.
  - apply Z.eqb_neq. pose proof (Z.pow_pos_nonneg 2 k). lia.
  - reflexivity.
Qed.

Lemma testbit_top (v k : Z) :
  0 <= k -> 0 <= v < 2 ^ (k + 1) -> Z.testbit v k = (2 ^ k <=? v).
Proof.
  intros Hk Hv.
  change (k + 1) with (Z.succ k) in Hv.
  rewrite Z.pow_succ_r in Hv by assumption.
  assert (P : 0 < 2 ^ k) by (apply Z.pow_pos_nonneg; lia).
  destruct (Z.leb_spec (2 ^ k) v) as [L|L].
  - apply Z.testbit_true; [assumption|].
    replace (v / 2 ^ k) with 1; [reflexivity|].
    apply Z.div_unique with (r := v - 2 ^ k); lia.
  - apply Z.testbit_false; [assumption|].
    rewrite Z.div_small by lia. reflexivity.
Qed.

Lemma twos_comp_signed (u bits : Z) :
  0 < bits -> 0 <= u < 2 ^ bits -> twos_comp u bits = signed bits u.
Proof.
  intros Hb Hu. unfold twos_comp, signed.
  rewrite !Z.shiftl_1_l, land_pow2_eqb, negb_involutive by lia.
  assert (Hu' : 0 <= u < 2 ^ (bits - 1 + 1)).
  { replace (bits - 1 + 1) with bits by lia. exact Hu. }
  rewrite (testbit_top u (bits - 1)) by (exact Hu' || lia).
  assert (P : 0 < 2 ^ (bits - 1)) by (apply Z.pow_pos_nonneg; lia).
  assert (D : 2 ^ bits = 2 * 2 ^ (bits - 1)).
  { replace bits with (Z.succ (bits - 1)) at 1 by lia.
    apply Z.pow_succ_r. lia. }
  destruct (Z.leb_spec (2 ^ (bits - 1)) u) as [L|L].
  - rewrite D.
    replace (u + 2 ^ (bits - 1)) with
      ((u - 2 ^ (bits - 1)) + 1 * (2 * 2 ^ (bits - 1))) by lia.
    rewrite Z.mod_add, Z.mod_small by lia. lia.
  - rewrite Z.mod_small by lia. lia.
Qed.

Lemma signed_spec (u bits : Z) :
  0 < bits ->
  - 2 ^ (bits - 1) <= signed bits u < 2 ^ (bits - 1)
  /\ (signed bits u) mod 2 ^ bits = u mod 2 ^ bits.
Proof.
  intros Hb. unfold signed.
  assert (P : 0 < 2 ^ (bits - 1)) by (apply Z.pow_pos_nonneg; lia).
  assert (D : 2 ^ bits = 2 * 2 ^ (bits - 1)).
  { replace bits with (Z.succ (bits - 1)) at 1 by lia.
    apply Z.pow_succ_r. lia. }
  split.
  - assert (B : 0 <= (u + 2 ^ (bits - 1)) mod 2 ^ bits < 2 ^ bits)
      by (apply Z.mod_pos_bound; lia).
    revert B. generalize ((u + 2 ^ (bits - 1)) mod 2 ^ bits). intros m B. lia.
  - rewrite Zminus_mod_idemp_l. f_equal. lia.
Qed.

(** ** Traces *)

Lemma writes_app (t u : list event) : writes (t ++ u) = writes t ++ writes u.
Proof.
  induction t as [|e t IH]; simpl; [reflexivity|].
  destruct e; simpl; rewrite IH; reflexivity.
Qed.

Lemma scale_sets_app (t u : list event) :
  scale_sets (t ++ u) = scale_sets t ++ scale_sets u.
Proof.
  induction t as [|e t IH]; simpl; [reflexivity|].
  destruct e; simpl; rewrite IH; reflexivity.
Qed.

(** ** Python primitives *)

Lemma bytearray_bytes (data : list Z) :
  Forall is_byte data -> bytearray data = Ok data.
Proof.
  intros F. unfold bytearray.
  replace (forallb _ data) with true; [reflexivity|].
  symmetry. apply forallb_forall. intros b Hb.
  rewrite Forall_forall in F. specialize (F b Hb). unfold is_byte in F.
  apply andb_true_intro. split; [apply Z.leb_le | apply Z.ltb_lt]; lia.
Qed.

Lemma bytearray_inv (data d : list Z) : bytearray data = Ok d -> d = data.
Proof.
  unfold bytearray. destruct (forallb _ data); congruence.
Qed.

Lemma field16_bytes (hi lo : Z) :
  is_byte hi -> is_byte lo -> twos_comp (hi * 256 + lo) 16 = field16 hi lo.
Proof.
  unfold is_byte, field16. intros Hhi Hlo.
  rewrite twos_comp_signed by (change (2 ^ 16) with 65536; lia).
  f_equal. lia.
Qed.

Lemma shiftr_2_div_4 (x : Z) : Z.shiftr x 2 = x / 4.
Proof. rewrite Z.shiftr_div_pow2 by lia. reflexivity. Qed.

(** The bits from position 2 upwards decide [x >> 2]. *)
Lemma shiftr_2_high_bits (x y : Z) :
  same_above_padding x y -> Z.shiftr x 2 = Z.shiftr y 2.
Proof.
  intros E. apply Z.bits_inj'. intros n Hn.
  rewrite !Z.shiftr_spec by assumption. apply E. lia.
Qed.

Lemma same_above_padding_shiftr (x y : Z) :
  Z.shiftr x 2 = Z.shiftr y 2 -> same_above_padding x y.
Proof.
  intros E n Hn. replace n with (n - 2 + 2) by lia.
  rewrite <- !Z.shiftr_spec by lia. rewrite E. reflexivity.
Qed.

(** ** What one call of a method does *)

Section MethodEffects.

Context {Dev : Type} `{I2C Dev}.

Lemma get_returns (s : self Dev) (data : list Z) (dv : Dev) :
  bus_read_block 0x1 12 (dev s) = (Some data, dv) ->
  get s =
  (match bytearray data with
   | Raise e => Raise e
   | Ok bytes =>
       match struct_unpack_6h bytes with
       | Raise e => Raise e
       | Ok fields =>
           match comprehension (fun x => int_mul (Z.shiftr x 2) (scale s))
                   (firstn 3 fields) with
           | Raise e => Raise e
           | Ok accel =>
               Ok (accel,
                   map (fun x => PrimFloat.mul (float_of_int x) MAG_UT_LSB)
                     (skipn 3 fields))
           end
       end
   end, after_call (EvReadBlock 0x1 12) dv s).
Proof.
  intros R. unfold get, bind, read_block, call, lift, get_scale, ret.
  rewrite R.
  destruct (bytearray data) as [bytes|e]; [|reflexivity].
  destruct (struct_unpack_6h bytes) as [fields|e]; [|reflexivity].
  cbn [scale].
  destruct (comprehension _ (firstn 3 fields)); reflexivity.
Qed.

Lemma get_bus_raises (s : self Dev) (dv : Dev) :
  bus_read_block 0x1 12 (dev s) = (None, dv) ->
  get s = (Raise (OSError (EvReadBlock 0x1 12)),
           after_call (EvReadBlock 0x1 12) dv s).
Proof.
  intros R. unfold get, bind, read_block, call. rewrite R. reflexivity.
Qed.

Lemma temperature_returns (s : self Dev) (b : Z) (dv : Dev) :
  bus_read8 FXOS8700_REGISTER_TEMPERATURE (dev s) = (Some b, dv) ->
  temperature s =
  (match bytearray [b] with
   | Raise e => Raise e
   | Ok bytes =>
       match struct_unpack_b bytes with
       | Raise e => Raise e
       | Ok r => Ok (nth 0%nat r 0)
       end
   end, after_call (EvRead8 FXOS8700_REGISTER_TEMPERATURE) dv s).
Proof.
  intros R. unfold temperature, bind, read8, call, lift, ret.
  rewrite R.
  destruct (bytearray [b]) as [bytes|e]; [|reflexivity].
  destruct (struct_unpack_b bytes); reflexivity.
Qed.

Lemma temperature_bus_raises (s : self Dev) (dv : Dev) :
  bus_read8 FXOS8700_REGISTER_TEMPERATURE (dev s) = (None, dv) ->
  temperature s = (Raise (OSError (EvRead8 FXOS8700_REGISTER_TEMPERATURE)),
                   after_call (EvRead8 FXOS8700_REGISTER_TEMPERATURE) dv s).
Proof.
  intros R. unfold temperature, bind, read8, call. rewrite R. reflexivity.
Qed.

(** A comprehension over [x * scale] raises only when the scale is unset. *)
Lemma comprehension_scaled (sc : float) (l : list Z) :
  comprehension (fun x => int_mul (Z.shiftr x 2) (Some sc)) l =
  Ok (map (fun x => PrimFloat.mul (float_of_int (Z.shiftr x 2)) sc) l).
Proof.
  induction l as [|x l IH]; simpl in *; [reflexivity|].
  rewrite IH. reflexivity.
Qed.

Lemma bytearray_raises (data : list Z) (e : exn) :
  bytearray data = Raise e -> e = ValueError.
Proof. unfold bytearray. destruct (forallb _ data); congruence. Qed.

Lemma struct_unpack_b_raises (data : list Z) (e : exn) :
  struct_unpack_b data = Raise e -> e = struct_error.
Proof.
  unfold struct_unpack_b. destruct data as [|b [|c data]]; congruence.
Qed.

Lemma struct_unpack_6h_raises (data : list Z) (e : exn) :
  struct_unpack_6h data = Raise e -> e = struct_error.
Proof.
  unfold struct_unpack_6h. destruct (length data =? 12)%nat; congruence.
Qed.

(** A read on the bus leaves the scale, the scale assignments and the
    register writes of the object as they were. *)
Lemma after_call_read (ev : event) (dv : Dev) (s : self Dev) :
  writes [ev] = [] -> scale_sets [ev] = [] ->
  scale (after_call ev dv s) = scale s
  /\ scale_sets (trace (after_call ev dv s)) = scale_sets (trace s)
  /\ writes (trace (after_call ev dv s)) = writes (trace s).
Proof.
  intros W S. cbn [after_call scale trace].
  rewrite scale_sets_app, writes_app, W, S, !app_nil_r. auto.
Qed.

(** Neither method assigns [self.scale] or writes to the bus, and [get]
    finds the scale it needs whenever it is set. *)
Lemma call_method_effect (m : method) (s : self Dev) :
  let (o, s') := call_method m s in
  scale s' = scale s
  /\ scale_sets (trace s') = scale_sets (trace s)
  /\ writes (trace s') = writes (trace s)
  /\ (scale s <> None -> o <> Some TypeError).
Proof.
  assert (K : forall (o : option exn) ev dv,
             writes [ev] = [] -> scale_sets [ev] = [] ->
             (scale s <> None -> o <> Some TypeError) ->
             scale (after_call ev dv s) = scale s
             /\ scale_sets (trace (after_call ev dv s)) = scale_sets (trace s)
             /\ writes (trace (after_call ev dv s)) = writes (trace s)
             /\ (scale s <> None -> o <> Some TypeError)).
  { intros o ev dv W S N.
    destruct (after_call_read ev dv s W S) as (E1 & E2 & E3). auto. }
  destruct m; unfold call_method.
  - destruct (bus_read8 FXOS8700_REGISTER_TEMPERATURE (dev s))
      as [[b|] dv] eqn:R.
    + rewrite (temperature_returns s b dv R).
      destruct (bytearray [b]) as [bytes|e] eqn:B.
      * destruct (struct_unpack_b bytes) as [r|e] eqn:U.
        -- apply K; try reflexivity. discriminate.
        -- apply K; try reflexivity.
           rewrite (struct_unpack_b_raises _ _ U). discriminate.
      * apply K; try reflexivity.
        rewrite (bytearray_raises _ _ B). discriminate.
    + rewrite (temperature_bus_raises s dv R).
      apply K; try reflexivity. discriminate.
  - destruct (bus_read_block 0x1 12 (dev s)) as [[data|] dv] eqn:R.
    + rewrite (get_returns s data dv R).
      destruct (bytearray data) as [bytes|e] eqn:B.
      * destruct (struct_unpack_6h bytes) as [fields|e] eqn:U.
        -- destruct (comprehension _ (firstn 3 fields)) as [a|e] eqn:C.
           ++ apply K; try reflexivity. discriminate.
           ++ apply K; try reflexivity.
              intros S. destruct (scale s) as [sc|]; [|congruence].
              rewrite comprehension_scaled in C. discriminate.
        -- apply K; try reflexivity.
           rewrite (struct_unpack_6h_raises _ _ U). discriminate.
      * apply K; try reflexivity.
        rewrite (bytearray_raises _ _ B). discriminate.
    + rewrite (get_bus_raises s dv R).
      apply K; try reflexivity. discriminate.
Qed.

End MethodEffects.

(** ** Construction *)

(** Answer the next call on the bus, both ways. *)
Ltac next_call :=
  match goal with
  | |- context [bus_open ?a ?b ?d] =>
      destruct (bus_open a b d) as [[[]|] ?dv] eqn:?
  | |- context [bus_read8 ?r ?d] =>
      destruct (bus_read8 r d) as [[?v|] ?dv] eqn:?
  | |- context [bus_write8 ?r ?v ?d] =>
      destruct (bus_write8 r v d) as [[[]|] ?dv] eqn:?
  end; cbn [after_call dev scale trace app].

Ltac run_init :=
  unfold construct, __init__, bind, I2C_init, read8, write8, call, raise,
    set_scale, ret, fresh; cbn [after_call dev scale trace app].

Section Construction.

Context {Dev : Type} `{I2C Dev}.

Lemma requested_range_cases (gs : option Z) :
  (gs_eq gs 2 || gs_is_None gs = true /\ requested_range gs = Some Range2G)
  \/ (gs_eq gs 2 || gs_is_None gs = false /\ gs_eq gs 4 = true
      /\ requested_range gs = Some Range4G)
  \/ (gs_eq gs 2 || gs_is_None gs = false /\ gs_eq gs 4 = false
      /\ gs_eq gs 8 = true /\ requested_range gs = Some Range8G)
  \/ (gs_eq gs 2 || gs_is_None gs = false /\ gs_eq gs 4 = false
      /\ gs_eq gs 8 = false /\ requested_range gs = None
      /\ exists v, gs = Some v /\ v <> 2 /\ v <> 4 /\ v <> 8).
Proof.
  destruct gs as [v|]; simpl; [|auto].
  rewrite orb_false_r.
  destruct (Z.eqb_spec v 2).
  { left. split; reflexivity. }
  destruct (Z.eqb_spec v 4).
  { right. left. repeat (split; [reflexivity|]). reflexivity. }
  destruct (Z.eqb_spec v 8).
  { right. right. left. repeat (split; [reflexivity|]). reflexivity. }
  right. right. right. repeat (split; [reflexivity|]). exists v. auto.
Qed.

(** The end of [__init__]: the optional temperature read. *)
Lemma verbose_tail (verbose : bool) (s s' : self Dev) (r : result unit) :
  (if verbose then bind temperature (fun _ => ret tt) else ret tt) s = (r, s') ->
  scale s' = scale s
  /\ scale_sets (trace s') = scale_sets (trace s)
  /\ writes (trace s') = writes (trace s)
  /\ (forall e, r = Raise e ->
                e = OSError (EvRead8 FXOS8700_REGISTER_TEMPERATURE)
                \/ e = ValueError \/ e = struct_error).
Proof.
  destruct verbose; unfold bind, ret.
  - pose proof (call_method_effect CallTemperature s) as E.
    unfold call_method in E.
    destruct (bus_read8 FXOS8700_REGISTER_TEMPERATURE (dev s))
      as [[b|] dv] eqn:R.
    + rewrite (temperature_returns s b dv R) in *.
      destruct (bytearray [b]) as [bytes|e1] eqn:B.
      * destruct (struct_unpack_b bytes) as [t|e1] eqn:U;
          intros Q; inversion Q; subst; repeat split; try tauto;
          intros e Qe; inversion Qe; subst.
        rewrite (struct_unpack_b_raises _ _ U). auto.
      * intros Q; inversion Q; subst; repeat split; try tauto.
        intros e Qe; inversion Qe; subst.
        rewrite (bytearray_raises _ _ B). auto.
    + rewrite (temperature_bus_raises s dv R) in *.
      intros Q; inversion Q; subst; repeat split; try tauto.
      intros e Qe; inversion Qe; subst. auto.
  - intros Q. inversion Q. repeat split; auto. discriminate.
Qed.

(** A construction that returns has requested a supported range, stored its
    scale by a single assignment, and issued the five configuration writes
    and no other. *)
Lemma construct_returns (gs : option Z) (bus : Z) (verbose : bool)
      (dv : Dev) (u : unit) (s : self Dev) :
  construct gs bus verbose dv = (Ok u, s) ->
  exists r,
    requested_range gs = Some r
    /\ scale s = Some (range_scale r)
    /\ scale_sets (trace s) = [range_scale r]
    /\ writes (trace s) = configuration_sequence (range_code r).
Proof.
  run_init.
  next_call; [|discriminate].
  next_call; [|discriminate].
  destruct (Z.eqb_spec v FXOS8700_ID) as [Hid|Hid]; cbn [negb]; [|discriminate].
  next_call; [|discriminate].
  destruct (requested_range_cases gs)
    as [(C2 & R)|[(C2 & C4 & R)|[(C2 & C4 & C8 & R)|(C2 & C4 & C8 & R & _)]]];
    rewrite ?C2, ?C4, ?C8; cbn [after_call dev scale trace app];
    try discriminate;
    do 4 (next_call; try discriminate);
    intros T; apply verbose_tail in T;
    cbn [after_call scale trace app] in T;
    destruct T as (T1 & T2 & T3 & _); rewrite T1, T2, T3;
    refine (ex_intro _ _ (conj R _)); repeat split; reflexivity.
Qed.

End Construction.

(** ** The construction sequence *)

Section ConstructionClaims.

Context {Dev : Type} `{I2C Dev}.

(** C4.  Every construction that returns was asked for a supported range
    (2, 4, 8, or none given) and has issued exactly five single-byte register
    writes, in this order: CTRL_REG1 = 0, XYZ_DATA_CFG = the code of the
    range (0 for 2G, 1 for 4G, 2 for 8G), CTRL_REG2 = 0x02, the
    magnetometer's MCTRL_REG1 = 0x00, CTRL_REG1 = 0x05. *)
Theorem configuration_write_order (gs : option Z) (bus : Z) (verbose : bool)
        (dv : Dev) (s : self Dev) :
  construct gs bus verbose dv = (Ok tt, s) ->
  exists r,
    requested_range gs = Some r
    /\ writes (trace s) =
       [ (FXOS8700_REGISTER_CTRL_REG1, 0);
         (FXOS8700_REGISTER_XYZ_DATA_CFG, range_code r);
         (FXOS8700_REGISTER_CTRL_REG2, 0x02);
         (FXOS8700_REGISTER_MCTRL_REG1, 0x00);
         (FXOS8700_REGISTER_CTRL_REG1, 0x05) ].
Proof.
  intros C. destruct (construct_returns _ _ _ _ _ _ C) as (r & R & _ & _ & W).
  exists r. split; [exact R|]. rewrite W. reflexivity.
Qed.

(** C8.  A construction that returns for the range 2, 4 or 8 has stored the
    scale of that range (0.000244, 0.000488, 0.000976) and has written the
    code of that range (0, 1, 2), and no other value, to XYZ_DATA_CFG; a
    construction without a range argument is the construction for range 2. *)
Theorem range_selects_scale_and_code (v : Z) (bus : Z) (verbose : bool)
        (dv : Dev) (s : self Dev) :
  v = 2 \/ v = 4 \/ v = 8 ->
  construct (Some v) bus verbose dv = (Ok tt, s) ->
  exists sc code,
    ((v = 2 /\ sc = 0.000244%float /\ code = 0)
     \/ (v = 4 /\ sc = 0.000488%float /\ code = 1)
     \/ (v = 8 /\ sc = 0.000976%float /\ code = 2))
    /\ scale s = Some sc
    /\ In (FXOS8700_REGISTER_XYZ_DATA_CFG, code) (writes (trace s))
    /\ (forall c, In (FXOS8700_REGISTER_XYZ_DATA_CFG, c) (writes (trace s)) ->
                  c = code)
    /\ construct None bus verbose dv = construct (Some 2) bus verbose dv.
Proof.
  intros V C.
  destruct (construct_returns _ _ _ _ _ _ C) as (r & R & S & _ & W).
  exists (range_scale r), (range_code r).
  split.
  { destruct V as [ -> | [ -> | -> ] ]; simpl in R; inversion R; subst r; simpl; auto 6. }
  split; [exact S|].
  rewrite W. unfold configuration_sequence.
  split; [simpl; auto|].
  split; [|reflexivity].
  intros c [E|[E|[E|[E|[E|[]]]]]]; inversion E. reflexivity.
Qed.

(** C3.  Once the bus is open and WHO_AM_I has been read: if the byte read
    is not 0xC7 the construction raises the identity error and has written
    no register; if it is 0xC7 the construction goes on to the configuration
    sequence, whose first write, CTRL_REG1 = 0, is issued, and whatever
    happens next is not the identity error. *)
Theorem identity_check (gs : option Z) (bus : Z) (verbose : bool)
        (dv dv1 dv2 : Dev) (id : Z) :
  bus_open FXOS8700_ADDRESS bus dv = (Some tt, dv1) ->
  bus_read8 FXOS8700_REGISTER_WHO_AM_I dv1 = (Some id, dv2) ->
  (id <> 0xC7 ->
   exists e s,
     construct gs bus verbose dv = (Raise e, s)
     /\ spec_error_of e = Some IdentityMismatch
     /\ writes (trace s) = [])
  /\ (id = 0xC7 ->
      exists r s rest,
        construct gs bus verbose dv = (r, s)
        /\ writes (trace s) = (FXOS8700_REGISTER_CTRL_REG1, 0) :: rest
        /\ forall e, r = Raise e -> spec_error_of e <> Some IdentityMismatch).
Proof.
  intros O R. split; intros Hid.
  - exists (Exception_talking FXOS8700_ADDRESS). eexists.
    run_init. rewrite O. cbn [after_call dev scale trace app]. rewrite R.
    destruct (Z.eqb_spec id FXOS8700_ID) as [E|E]; [contradiction|].
    cbn [negb after_call dev scale trace app].
    split; [reflexivity|]. split; reflexivity.
  - subst id.
    destruct (construct gs bus verbose dv) as [r s] eqn:C.
    exists r, s.
    enough (exists rest,
               writes (trace s) = (FXOS8700_REGISTER_CTRL_REG1, 0) :: rest
               /\ forall e, r = Raise e ->
                            spec_error_of e <> Some IdentityMismatch)
      as (rest & A & B) by (exists rest; auto).
    revert C.
    run_init. rewrite O. cbn [after_call dev scale trace app]. rewrite R.
    cbn [Z.eqb Pos.eqb FXOS8700_ID negb after_call dev scale trace app].
    assert (K : forall (s0 : self Dev) w e0,
               spec_error_of e0 <> Some IdentityMismatch ->
               writes (trace s0) = (FXOS8700_REGISTER_CTRL_REG1, 0) :: w ->
               (Raise e0, s0) = (r, s) ->
               exists rest,
                 writes (trace s) = (FXOS8700_REGISTER_CTRL_REG1, 0) :: rest
                 /\ forall e, r = Raise e ->
                              spec_error_of e <> Some IdentityMismatch).
    { intros s0 w e0 He Hw Q. inversion Q; subst r s.
      exists w. split; [exact Hw|].
      intros e Q'. inversion Q'; subst; assumption. }
    next_call; [|eapply K; [discriminate|reflexivity]].
    destruct (requested_range_cases gs)
      as [(C2 & _)|[(C2 & C4 & _)|[(C2 & C4 & C8 & _)|(C2 & C4 & C8 & _)]]];
      rewrite ?C2, ?C4, ?C8; cbn [after_call dev scale trace app];
      try (eapply K; [discriminate|reflexivity]);
      do 4 (next_call; try (eapply K; [discriminate|reflexivity]));
      intros T; apply verbose_tail in T;
      cbn [after_call scale trace app] in T;
      destruct T as (_ & _ & W & E);
      (eexists; split; [exact W|]);
      intros e Q; destruct (E e Q) as [ -> | [ -> | -> ] ]; discriminate.
Qed.

End ConstructionClaims.

Section RangeCheck.

Context {Dev : Type} `{I2C Dev}.

(** C2, as the code has it.  For a range argument that is given and is not
    2, 4 or 8: once the bus is open, WHO_AM_I has answered 0xC7 and the
    standby write CTRL_REG1 = 0 has been accepted, the construction raises
    the range error.  The standby write is the only register write issued:
    XYZ_DATA_CFG and the registers after it are never written, and no scale
    is stored. *)
Theorem unsupported_range_rejected (v : Z) (bus : Z) (verbose : bool)
        (dv dv1 dv2 dv3 : Dev) :
  v <> 2 -> v <> 4 -> v <> 8 ->
  bus_open FXOS8700_ADDRESS bus dv = (Some tt, dv1) ->
  bus_read8 FXOS8700_REGISTER_WHO_AM_I dv1 = (Some 0xC7, dv2) ->
  bus_write8 FXOS8700_REGISTER_CTRL_REG1 0 dv2 = (Some tt, dv3) ->
  exists e s,
    construct (Some v) bus verbose dv = (Raise e, s)
    /\ spec_error_of e = Some InvalidConfiguration
    /\ writes (trace s) = [(FXOS8700_REGISTER_CTRL_REG1, 0)]
    /\ scale s = None
    /\ scale_sets (trace s) = [].
Proof.
  intros V2 V4 V8 O R W.
  exists (Exception_range (Some v)). eexists.
  run_init. rewrite O. cbn [after_call dev scale trace app]. rewrite R.
  cbn [Z.eqb Pos.eqb FXOS8700_ID negb after_call dev scale trace app].
  rewrite W. cbn [after_call dev scale trace app gs_eq gs_is_None].
  rewrite orb_false_r.
  destruct (Z.eqb_spec v 2); [contradiction|].
  destruct (Z.eqb_spec v 4); [contradiction|].
  destruct (Z.eqb_spec v 8); [contradiction|].
  repeat split; reflexivity.
Qed.

(** C9.  A construction that returns has assigned [self.scale] once; from
    then on, whatever methods are called on the object and in whatever
    order, the scale stays the value assigned, no further assignment is
    made, and no call stops on an unset scale. *)
Theorem scale_set_once (gs : option Z) (bus : Z) (verbose : bool)
        (dv : Dev) (s : self Dev) :
  construct gs bus verbose dv = (Ok tt, s) ->
  exists sc,
    scale s = Some sc
    /\ scale_sets (trace s) = [sc]
    /\ forall ms : list method,
         let (os, s') := call_methods ms s in
         scale s' = Some sc
         /\ scale_sets (trace s') = [sc]
         /\ ~ In (Some TypeError) os.
Proof.
  intros C.
  destruct (construct_returns _ _ _ _ _ _ C) as (r & _ & S & A & _).
  exists (range_scale r). split; [exact S|]. split; [exact A|].
  intros ms. revert S A. generalize (range_scale r). clear C. revert s.
  induction ms as [|m ms IH]; intros s sc S A; simpl.
  - auto.
  - pose proof (call_method_effect m s) as E.
    destruct (call_method m s) as [o s1].
    destruct E as (E1 & E2 & _ & E4).
    rewrite S in E1. rewrite A in E2.
    specialize (IH s1 sc E1 E2).
    destruct (call_methods ms s1) as [os s2].
    destruct IH as (I1 & I2 & I3).
    split; [exact I1|]. split; [exact I2|].
    intros [Q|Q]; [|exact (I3 Q)].
    apply E4; [rewrite S; discriminate | exact Q].
Qed.

End RangeCheck.

(** ** Decoding *)

Section DecodingClaims.

Context {Dev : Type} `{I2C Dev}.

(** C7.  For every byte [b] read from the temperature register, the
    temperature method returns the 8-bit two's complement reading of [b]:
    the integer of -128 .. 127 congruent to [b] modulo 256; 0xFF gives -1
    and 0x19 gives 25.  The call reads the bus once and touches nothing
    else. *)
Theorem temperature_signed_byte (s : self Dev) (b : Z) (dv : Dev) :
  bus_read8 FXOS8700_REGISTER_TEMPERATURE (dev s) = (Some b, dv) ->
  is_byte b ->
  exists t,
    temperature s =
      (Ok t, after_call (EvRead8 FXOS8700_REGISTER_TEMPERATURE) dv s)
    /\ -128 <= t <= 127
    /\ t mod 256 = b
    /\ (b = 0xFF -> t = -1)
    /\ (b = 0x19 -> t = 25).
Proof.
  intros R B. exists (signed 8 b).
  rewrite (temperature_returns s b dv R).
  rewrite bytearray_bytes by (constructor; [exact B|constructor]).
  cbn [struct_unpack_b nth].
  rewrite twos_comp_signed by (unfold is_byte in B; change (2 ^ 8) with 256; lia).
  split; [reflexivity|].
  destruct (signed_spec b 8) as (Rg & Md); [lia|].
  change (2 ^ (8 - 1)) with 128 in Rg. change (2 ^ 8) with 256 in Md.
  unfold is_byte in B.
  split; [lia|]. split; [rewrite Md; apply Z.mod_small; lia|].
  split; intros ->; reflexivity.
Qed.

(** C5.  When the burst read comes back with a number of bytes other than
    12, [get] raises and returns no vector at all; the exception is the one
    raised for a buffer of the wrong size, which is the bus read failure of
    the specification. *)
Theorem short_burst_fails (s : self Dev) (data : list Z) (dv : Dev) :
  bus_read_block 0x1 12 (dev s) = (Some data, dv) ->
  length data <> 12%nat ->
  (exists e, get s = (Raise e, after_call (EvReadBlock 0x1 12) dv s))
  /\ (Forall is_byte data ->
      get s = (Raise struct_error, after_call (EvReadBlock 0x1 12) dv s)
      /\ spec_error_of struct_error = Some BusReadFailed).
Proof.
  intros R L.
  rewrite (get_returns s data dv R).
  assert (U : struct_unpack_6h data = Raise struct_error).
  { unfold struct_unpack_6h.
    destruct (Nat.eqb_spec (length data) 12); [contradiction|reflexivity]. }
  split.
  - destruct (bytearray data) as [bytes|e] eqn:B.
    + rewrite (bytearray_inv _ _ B), U. eauto.
    + eauto.
  - intros F. rewrite (bytearray_bytes _ F), U. split; reflexivity.
Qed.

End DecodingClaims.

(** ** Samples *)

Lemma Z_interval_In (lo : Z) (n : nat) (x : Z) :
  lo <= x < lo + Z.of_nat n -> In x (Z_interval lo n).
Proof.
  revert lo. induction n as [|n IH]; intros lo B; [lia|].
  cbn [Z_interval]. destruct (Z.eq_dec lo x) as [E|E].
  - left. exact E.
  - right. apply IH. lia.
Qed.

(** Every negative 14-bit sample, times each of the three scales the driver
    can store, compares below zero: checked on all 8192 samples. *)
Lemma negative_samples_checked (r : RangeSetting) :
  forallb
    (fun q => PrimFloat.ltb (PrimFloat.mul (float_of_int q) (range_scale r))
                0%float)
    (Z_interval (-8192) (Z.to_nat 8192)) = true.
Proof. destruct r; vm_cast_no_check (eq_refl true). Qed.

Lemma negative_14_bit_sample (q : Z) :
  -8192 <= q < 0 -> In q (Z_interval (-8192) (Z.to_nat 8192)).
Proof.
  intros B. apply Z_interval_In. rewrite Z2Nat.id by lia. lia.
Qed.

(** A negative field keeps its sign through the shift and the scaling, for
    each of the three scales the driver can store. *)
Lemma negative_sample (r : RangeSetting) (raw : Z) :
  -32768 <= raw < 0 ->
  raw / 4 < 0
  /\ PrimFloat.ltb (accel_g (range_scale r) raw) 0%float = true.
Proof.
  intros B.
  assert (Q : -8192 <= raw / 4 < 0) by (Z.div_mod_to_equations; lia).
  split; [lia|].
  exact (proj1 (forallb_forall _ _) (negative_samples_checked r)
           (raw / 4) (negative_14_bit_sample _ Q)).
Qed.

Lemma field16_spec (hi lo : Z) :
  is_byte hi -> is_byte lo ->
  -32768 <= field16 hi lo <= 32767
  /\ field16 hi lo mod 65536 = 256 * hi + lo.
Proof.
  unfold is_byte, field16. intros Hhi Hlo.
  destruct (signed_spec (256 * hi + lo) 16) as (Rg & Md); [lia|].
  change (2 ^ (16 - 1)) with 32768 in Rg. change (2 ^ 16) with 65536 in Md.
  split; [lia|]. rewrite Md. apply Z.mod_small. lia.
Qed.

Section SampleClaims.

Context {Dev : Type} `{I2C Dev}.

(** What [get] returns on a 12-byte burst when the scale is set. *)
Lemma get_decodes (s : self Dev) (sc : float) (dv : Dev)
      (b0 b1 b2 b3 b4 b5 b6 b7 b8 b9 b10 b11 : Z) :
  scale s = Some sc ->
  bus_read_block 0x1 12 (dev s) =
    (Some [b0; b1; b2; b3; b4; b5; b6; b7; b8; b9; b10; b11], dv) ->
  Forall is_byte [b0; b1; b2; b3; b4; b5; b6; b7; b8; b9; b10; b11] ->
  get s =
    (Ok ([accel_g sc (field16 b0 b1); accel_g sc (field16 b2 b3);
          accel_g sc (field16 b4 b5)],
         [mag_uT (field16 b6 b7); mag_uT (field16 b8 b9);
          mag_uT (field16 b10 b11)]),
     after_call (EvReadBlock 0x1 12) dv s).
Proof.
  intros S R F.
  rewrite (get_returns s _ dv R), (bytearray_bytes _ F), S.
  cbn [struct_unpack_6h length Nat.eqb be_shorts firstn skipn].
  rewrite comprehension_scaled. cbn [map].
  repeat match goal with
         | F : Forall _ (_ :: _) |- _ => inversion F; clear F; subst
         end.
  rewrite !field16_bytes by assumption.
  rewrite !shiftr_2_div_4. reflexivity.
Qed.

(** C1, as the code has it.  On every 12-byte burst, [get] returns as
    acceleration the first three big-endian two's complement 16-bit fields,
    each shifted right by two bits arithmetically (rounded towards minus
    infinity, so a negative field gives a negative sample and, for each of
    the three scales, a negative acceleration) and multiplied in binary64
    by the stored scale.  With the 2G scale the field 0x0190 gives
    100 * 0.000244, which in binary64 is 0.024399999999999998, the double
    just below 0.0244; 0xFE70 gives its opposite; 0x0000 gives 0.0. *)
Theorem acceleration_decoding (s : self Dev) (sc : float) (dv : Dev)
        (b0 b1 b2 b3 b4 b5 b6 b7 b8 b9 b10 b11 : Z) :
  scale s = Some sc ->
  bus_read_block 0x1 12 (dev s) =
    (Some [b0; b1; b2; b3; b4; b5; b6; b7; b8; b9; b10; b11], dv) ->
  Forall is_byte [b0; b1; b2; b3; b4; b5; b6; b7; b8; b9; b10; b11] ->
  (exists mag s',
      get s = (Ok ([accel_g sc (field16 b0 b1); accel_g sc (field16 b2 b3);
                    accel_g sc (field16 b4 b5)], mag), s'))
  /\ (forall hi lo, is_byte hi -> is_byte lo ->
        -32768 <= field16 hi lo <= 32767
        /\ field16 hi lo mod 65536 = 256 * hi + lo)
  /\ (forall r raw, -32768 <= raw < 0 ->
        raw / 4 < 0
        /\ PrimFloat.ltb (accel_g (range_scale r) raw) 0%float = true)
  /\ accel_g ACCEL_MG_LSB_2G (field16 0x01 0x90) = 0.024399999999999998%float
  /\ PrimFloat.next_up (accel_g ACCEL_MG_LSB_2G (field16 0x01 0x90))
     = 0.0244%float
  /\ accel_g ACCEL_MG_LSB_2G (field16 0xFE 0x70)
     = (-0.024399999999999998)%float
  /\ accel_g ACCEL_MG_LSB_2G (field16 0x00 0x00) = 0%float.
Proof.
  intros S R F.
  split; [rewrite (get_decodes s sc dv _ _ _ _ _ _ _ _ _ _ _ _ S R F); eauto|].
  split; [exact field16_spec|].
  split; [exact negative_sample|].
  repeat split; vm_compute; reflexivity.
Qed.

(** C6.  On every 12-byte burst, [get] returns as magnetic field the last
    three big-endian two's complement 16-bit fields, whole, each multiplied
    in binary64 by 0.1; the field 0x03E8, which is 1000, gives 100.0. *)
Theorem magnetic_field_decoding (s : self Dev) (sc : float) (dv : Dev)
        (b0 b1 b2 b3 b4 b5 b6 b7 b8 b9 b10 b11 : Z) :
  scale s = Some sc ->
  bus_read_block 0x1 12 (dev s) =
    (Some [b0; b1; b2; b3; b4; b5; b6; b7; b8; b9; b10; b11], dv) ->
  Forall is_byte [b0; b1; b2; b3; b4; b5; b6; b7; b8; b9; b10; b11] ->
  (exists accel s',
      get s = (Ok (accel,
                   [PrimFloat.mul (float_of_int (field16 b6 b7)) MAG_UT_LSB;
                    PrimFloat.mul (float_of_int (field16 b8 b9)) MAG_UT_LSB;
                    PrimFloat.mul (float_of_int (field16 b10 b11)) MAG_UT_LSB]),
               s'))
  /\ (-32768 <= field16 b6 b7 <= 32767
      /\ field16 b6 b7 mod 65536 = 256 * b6 + b7)
  /\ (-32768 <= field16 b8 b9 <= 32767
      /\ field16 b8 b9 mod 65536 = 256 * b8 + b9)
  /\ (-32768 <= field16 b10 b11 <= 32767
      /\ field16 b10 b11 mod 65536 = 256 * b10 + b11)
  /\ field16 0x03 0xE8 = 1000
  /\ PrimFloat.mul (float_of_int (field16 0x03 0xE8)) MAG_UT_LSB = 100%float.
Proof.
  intros S R F.
  split; [rewrite (get_decodes s sc dv _ _ _ _ _ _ _ _ _ _ _ _ S R F); eauto|].
  repeat match goal with
         | F : Forall _ (_ :: _) |- _ => inversion F; clear F; subst
         end.
  split; [apply field16_spec; assumption|].
  split; [apply field16_spec; assumption|].
  split; [apply field16_spec; assumption|].
  split; vm_compute; reflexivity.
Qed.

(** C10.  Two 12-byte bursts whose acceleration fields agree on every bit
    but the lowest two, and whose magnetic fields are equal, make [get]
    return the same acceleration triple (and the same magnetic triple) on
    two objects holding the same scale. *)
Theorem padding_bits_ignored (s1 s2 : self Dev) (sc : float)
        (data1 data2 : list Z) (dv1 dv2 : Dev) :
  scale s1 = Some sc -> scale s2 = Some sc ->
  bus_read_block 0x1 12 (dev s1) = (Some data1, dv1) ->
  bus_read_block 0x1 12 (dev s2) = (Some data2, dv2) ->
  length data1 = 12%nat -> length data2 = 12%nat ->
  Forall is_byte data1 -> Forall is_byte data2 ->
  (forall i, (i < 3)%nat ->
     same_above_padding (nth i (be_shorts data1) 0) (nth i (be_shorts data2) 0)) ->
  (forall i, (3 <= i < 6)%nat ->
     nth i (be_shorts data1) 0 = nth i (be_shorts data2) 0) ->
  exists accel mag s1' s2',
    get s1 = (Ok (accel, mag), s1') /\ get s2 = (Ok (accel, mag), s2').
Proof.
  intros S1 S2 R1 R2 L1 L2 F1 F2 A M.
  rewrite (get_returns s1 _ dv1 R1), (get_returns s2 _ dv2 R2).
  rewrite (bytearray_bytes _ F1), (bytearray_bytes _ F2), S1, S2.
  unfold struct_unpack_6h. rewrite L1, L2. cbn [Nat.eqb].
  rewrite !comprehension_scaled.
  do 13 (destruct data1 as [|? data1]; try discriminate L1).
  do 13 (destruct data2 as [|? data2]; try discriminate L2).
  cbn [be_shorts firstn skipn map].
  pose proof (shiftr_2_high_bits _ _ (A 0%nat ltac:(lia))) as A0.
  pose proof (shiftr_2_high_bits _ _ (A 1%nat ltac:(lia))) as A1.
  pose proof (shiftr_2_high_bits _ _ (A 2%nat ltac:(lia))) as A2.
  pose proof (M 3%nat ltac:(lia)) as M3.
  pose proof (M 4%nat ltac:(lia)) as M4.
  pose proof (M 5%nat ltac:(lia)) as M5.
  cbn [be_shorts nth] in A0, A1, A2, M3, M4, M5.
  rewrite A0, A1, A2, M3, M4, M5.
  eauto 6.
Qed.

End SampleClaims.

(** ** The theorems at work on the mock device *)

Lemma configuration_write_order_chip :
  exists r,
    requested_range (Some 4) = Some r
    /\ writes (trace (snd (construct (Some 4) 1 false chip))) =
       [ (FXOS8700_REGISTER_CTRL_REG1, 0);
         (FXOS8700_REGISTER_XYZ_DATA_CFG, range_code r);
         (FXOS8700_REGISTER_CTRL_REG2, 0x02);
         (FXOS8700_REGISTER_MCTRL_REG1, 0x00);
         (FXOS8700_REGISTER_CTRL_REG1, 0x05) ].
Proof.
  apply (configuration_write_order (Some 4) 1 false chip).
  reflexivity.
Defined.

Lemma range_selects_scale_and_code_chip :
  exists sc code,
    ((8 = 2 /\ sc = 0.000244%float /\ code = 0)
     \/ (8 = 4 /\ sc = 0.000488%float /\ code = 1)
     \/ (8 = 8 /\ sc = 0.000976%float /\ code = 2))
    /\ scale (snd (construct (Some 8) 1 true chip)) = Some sc
    /\ In (FXOS8700_REGISTER_XYZ_DATA_CFG, code)
          (writes (trace (snd (construct (Some 8) 1 true chip))))
    /\ (forall c,
           In (FXOS8700_REGISTER_XYZ_DATA_CFG, c)
              (writes (trace (snd (construct (Some 8) 1 true chip)))) ->
           c = code)
    /\ construct None 1 true chip = construct (Some 2) 1 true chip.
Proof.
  apply (range_selects_scale_and_code 8 1 true chip).
  - right. right. reflexivity.
  - reflexivity.
Defined.

Lemma identity_check_stranger :
  (0xC4 <> 0xC7 ->
   exists e s,
     construct (Some 2) 1 false stranger = (Raise e, s)
     /\ spec_error_of e = Some IdentityMismatch
     /\ writes (trace s) = [])
  /\ (0xC4 = 0xC7 ->
      exists r s rest,
        construct (Some 2) 1 false stranger = (r, s)
        /\ writes (trace s) = (FXOS8700_REGISTER_CTRL_REG1, 0) :: rest
        /\ forall e, r = Raise e -> spec_error_of e <> Some IdentityMismatch).
Proof.
  apply (identity_check (Some 2) 1 false stranger stranger stranger 0xC4).
  - reflexivity.
  - reflexivity.
Defined.

(** C2 as stated fails: asked for range 3, the driver has already put the
    chip in standby when it raises. *)
Lemma unsupported_range_after_standby :
  ~ (exists e s,
        construct (Some 3) 1 false chip = (Raise e, s)
        /\ spec_error_of e = Some InvalidConfiguration
        /\ writes (trace s) = []).
Proof.
  intros (e & s & C & _ & W).
  vm_compute in C. inversion C; subst s. discriminate W.
Qed.

Lemma unsupported_range_rejected_chip :
  exists e s,
    construct (Some 3) 1 false chip = (Raise e, s)
    /\ spec_error_of e = Some InvalidConfiguration
    /\ writes (trace s) = [(FXOS8700_REGISTER_CTRL_REG1, 0)]
    /\ scale s = None
    /\ scale_sets (trace s) = [].
Proof.
  apply (unsupported_range_rejected 3 1 false chip chip chip
           (snd (mock_write8 FXOS8700_REGISTER_CTRL_REG1 0 chip)));
    try lia; reflexivity.
Defined.

Lemma scale_set_once_chip :
  exists sc,
    scale (constructed chip) = Some sc
    /\ scale_sets (trace (constructed chip)) = [sc]
    /\ forall ms : list method,
         let (os, s') := call_methods ms (constructed chip) in
         scale s' = Some sc
         /\ scale_sets (trace s') = [sc]
         /\ ~ In (Some TypeError) os.
Proof.
  apply (scale_set_once None 1 false chip (constructed chip)).
  reflexivity.
Defined.

Lemma temperature_signed_byte_chip :
  exists t,
    temperature (constructed chip_padded) =
      (Ok t, after_call (EvRead8 FXOS8700_REGISTER_TEMPERATURE)
               (dev (constructed chip_padded)) (constructed chip_padded))
    /\ -128 <= t <= 127
    /\ t mod 256 = 0xFF
    /\ (0xFF = 0xFF -> t = -1)
    /\ (0xFF = 0x19 -> t = 25).
Proof.
  apply (temperature_signed_byte (constructed chip_padded) 0xFF).
  - reflexivity.
  - unfold is_byte. lia.
Defined.

Lemma short_burst_fails_chip :
  (exists e,
      get (constructed chip_short) =
        (Raise e, after_call (EvReadBlock 0x1 12)
                    (dev (constructed chip_short)) (constructed chip_short)))
  /\ (Forall is_byte [0x01; 0x90; 0xFE; 0x70; 0x00; 0x00; 0x03] ->
      get (constructed chip_short) =
        (Raise struct_error,
         after_call (EvReadBlock 0x1 12)
           (dev (constructed chip_short)) (constructed chip_short))
      /\ spec_error_of struct_error = Some BusReadFailed).
Proof.
  apply (short_burst_fails (constructed chip_short)
           [0x01; 0x90; 0xFE; 0x70; 0x00; 0x00; 0x03]).
  - reflexivity.
  - simpl. lia.
Defined.

Lemma chip_block_bytes :
  Forall is_byte [0x01; 0x90; 0xFE; 0x70; 0x00; 0x00;
                  0x03; 0xE8; 0xFC; 0x18; 0x00; 0x00].
Proof. repeat constructor; unfold is_byte; lia. Defined.

Lemma chip_padded_block_bytes :
  Forall is_byte [0x01; 0x93; 0xFE; 0x71; 0x00; 0x02;
                  0x03; 0xE8; 0xFC; 0x18; 0x00; 0x00].
Proof. repeat constructor; unfold is_byte; lia. Defined.

(** C1 as stated fails in its figures: on the chip holding X = 0x0190 the
    2G driver does not return the double 0.0244. *)
Lemma acceleration_0x0190_is_not_0_0244 :
  ~ (exists ay az mag s',
        get (constructed chip) = (Ok ([0.0244%float; ay; az], mag), s')).
Proof.
  intros (ay & az & mag & s' & G).
  apply (f_equal (fun p => match fst p with
                           | Ok (ax :: _, _) => PrimFloat.eqb ax 0.0244%float
                           | _ => true
                           end)) in G.
  vm_compute in G. discriminate G.
Qed.

Lemma acceleration_decoding_chip :
  exists mag s',
    get (constructed chip) =
      (Ok ([accel_g ACCEL_MG_LSB_2G (field16 0x01 0x90);
            accel_g ACCEL_MG_LSB_2G (field16 0xFE 0x70);
            accel_g ACCEL_MG_LSB_2G (field16 0x00 0x00)], mag), s').
Proof.
  apply (acceleration_decoding (constructed chip) ACCEL_MG_LSB_2G
           (dev (constructed chip))
           0x01 0x90 0xFE 0x70 0x00 0x00 0x03 0xE8 0xFC 0x18 0x00 0x00).
  - reflexivity.
  - reflexivity.
  - exact chip_block_bytes.
Defined.

Lemma magnetic_field_decoding_chip :
  exists accel s',
    get (constructed chip) =
      (Ok (accel,
           [PrimFloat.mul (float_of_int (field16 0x03 0xE8)) MAG_UT_LSB;
            PrimFloat.mul (float_of_int (field16 0xFC 0x18)) MAG_UT_LSB;
            PrimFloat.mul (float_of_int (field16 0x00 0x00)) MAG_UT_LSB]),
       s').
Proof.
  apply (magnetic_field_decoding (constructed chip) ACCEL_MG_LSB_2G
           (dev (constructed chip))
           0x01 0x90 0xFE 0x70 0x00 0x00 0x03 0xE8 0xFC 0x18 0x00 0x00).
  - reflexivity.
  - reflexivity.
  - exact chip_block_bytes.
Defined.

Lemma padding_bits_ignored_chip :
  exists accel mag s1' s2',
    get (constructed chip) = (Ok (accel, mag), s1')
    /\ get (constructed chip_padded) = (Ok (accel, mag), s2').
Proof.
  apply (padding_bits_ignored (constructed chip) (constructed chip_padded)
           ACCEL_MG_LSB_2G (block chip) (block chip_padded)
           (dev (constructed chip)) (dev (constructed chip_padded))).
  - reflexivity.
  - reflexivity.
  - reflexivity.
  - reflexivity.
  - reflexivity.
  - reflexivity.
  - exact chip_block_bytes.
  - exact chip_padded_block_bytes.
  - intros i Hi.
    destruct i as [|[|[|i]]];
      [ apply same_above_padding_shiftr; reflexivity
      | apply same_above_padding_shiftr; reflexivity
      | apply same_above_padding_shiftr; reflexivity
      | lia ].
  - intros i Hi.
    destruct i as [|[|[|[|[|[|i]]]]]]; try lia; reflexivity.
Defined.

(** ** The model at work *)

(** The writes the driver issues are the writes the device receives. *)
Example chip_receives_the_configuration :
  received (dev (constructed chip)) = writes (trace (constructed chip)).
Proof. reflexivity. Qed.

(** [get] on an object whose [__init__] never ran stops on the unset scale. *)
Example get_before_construction :
  fst (get (fresh chip)) = Raise TypeError.
Proof. reflexivity. Qed.

(** A stranger on the bus is left untouched. *)
Example stranger_untouched :
  received (dev (snd (construct None 1 false stranger))) = [].
Proof. reflexivity. Qed.

(** * Beyond the construction that returns *)

(** ** Every construction, whatever its outcome *)

(** Settle one outcome of [construct_outcomes]. *)
Ltac leaf :=
  cbn [writes scale_sets trace scale];
  split;
  [ try match goal with
        | R : requested_range _ = _ |- _ => rewrite R
        end;
    eexists; cbn [app]; reflexivity
  | split;
    [ intros ev Q; first [discriminate Q | inversion Q; subst; reflexivity]
    | split;
      [ first
          [ reflexivity
          | eexists; split; [eassumption|]; split; [reflexivity|];
            split; [cbn; tauto | reflexivity] ]
      | first
          [ intros W; exfalso; apply W; reflexivity
          | intros _; do 2 eexists; split;
            first [reflexivity | eassumption] ] ] ] ].

Section EveryConstruction.

Context {Dev : Type} `{I2C Dev}.

(** [verbose] only adds a last step to the construction. *)
Lemma construct_verbose (gs : option Z) (bus : Z) (verbose : bool) (dv : Dev) :
  construct gs bus verbose dv =
  match construct gs bus false dv with
  | (Ok _, s) =>
      (if verbose then bind temperature (fun _ => ret tt) else ret tt) s
  | (Raise e, s) => (Raise e, s)
  end.
Proof.
  run_init.
  next_call; [|reflexivity].
  next_call; [|reflexivity].
  destruct (negb (v =? FXOS8700_ID)); [reflexivity|].
  next_call; [|reflexivity].
  destruct (gs_eq gs 2 || gs_is_None gs);
    [|destruct (gs_eq gs 4); [|destruct (gs_eq gs 8); [|reflexivity]]];
    cbn [after_call dev scale trace app];
    do 4 (next_call; try reflexivity).
Qed.

(** The last step: nothing, or one read of the temperature register, which
    can raise in the bus or on a value that is no byte. *)
Lemma verbose_step (verbose : bool) (s s' : self Dev) (r : result unit) :
  (if verbose then bind temperature (fun _ => ret tt) else ret tt) s = (r, s') ->
  (verbose = false /\ r = Ok tt /\ s' = s)
  \/ (verbose = true
      /\ trace s' = trace s ++ [EvRead8 FXOS8700_REGISTER_TEMPERATURE]
      /\ scale s' = scale s
      /\ (r = Ok tt
          \/ r = Raise (OSError (EvRead8 FXOS8700_REGISTER_TEMPERATURE))
          \/ r = Raise ValueError)).
Proof.
  destruct verbose; unfold bind, ret.
  - intros Q. right. split; [reflexivity|].
    destruct (bus_read8 FXOS8700_REGISTER_TEMPERATURE (dev s))
      as [[b|] dv] eqn:R.
    + rewrite (temperature_returns s b dv R) in Q.
      destruct (bytearray [b]) as [bytes|e1] eqn:B.
      * rewrite (bytearray_inv _ _ B) in Q. cbn [struct_unpack_b] in Q.
        inversion Q; subst. auto.
      * rewrite (bytearray_raises _ _ B) in Q. inversion Q; subst. auto.
    + rewrite (temperature_bus_raises s dv R) in Q. inversion Q; subst. auto.
  - intros Q. inversion Q. auto.
Qed.

(** What holds of a construction without the last step, whatever the bus
    answers: the writes issued so far are the head of the configuration
    sequence; a failure of the bus is the last thing in the trace; the scale,
    if stored, is that of the range whose code was written; and nothing was
    written unless the bus opened and WHO_AM_I answered 0xC7. *)
Lemma construct_outcomes (gs : option Z) (bus : Z) (dv : Dev) :
  let (r, s) := construct gs bus false dv in
  (exists rest,
      writes (trace s) ++ rest =
      configuration_sequence
        (match requested_range gs with Some rg => range_code rg | None => 0 end))
  /\ (forall ev, r = Raise (OSError ev) -> removelast (trace s) ++ [ev] = trace s)
  /\ match scale s with
     | Some sc =>
         exists rg, requested_range gs = Some rg /\ sc = range_scale rg
                    /\ In (FXOS8700_REGISTER_XYZ_DATA_CFG, range_code rg)
                          (writes (trace s))
                    /\ scale_sets (trace s) = [sc]
     | None => scale_sets (trace s) = []
     end
  /\ (writes (trace s) <> [] ->
      exists dv1 dv2,
        bus_open FXOS8700_ADDRESS bus dv = (Some tt, dv1)
        /\ bus_read8 FXOS8700_REGISTER_WHO_AM_I dv1 = (Some 0xC7, dv2)).
Proof.
  run_init.
  next_call; [|leaf].
  next_call; [|leaf].
  destruct (Z.eqb_spec v FXOS8700_ID) as [Hid|Hid]; cbn [negb]; [|leaf].
  unfold FXOS8700_ID in Hid. subst v.
  next_call; [|leaf].
  destruct (requested_range_cases gs)
    as [(C2 & R)|[(C2 & C4 & R)|[(C2 & C4 & C8 & R)|(C2 & C4 & C8 & R & _)]]];
    rewrite ?C2, ?C4, ?C8; cbn [after_call dev scale trace app];
    try leaf;
    do 4 (next_call; try leaf).
Qed.

(** X1.  Whatever the bus answers and however the construction ends, the
    register writes it has issued are a head of the configuration sequence
    CTRL_REG1 = 0, XYZ_DATA_CFG = code, CTRL_REG2 = 0x02, MCTRL_REG1 = 0x00,
    CTRL_REG1 = 0x05, with the code of the requested range: the driver never
    writes another register, another value, or out of order. *)
Theorem writes_head_of_configuration (gs : option Z) (bus : Z)
        (verbose : bool) (dv : Dev) :
  exists rest,
    writes (trace (snd (construct gs bus verbose dv))) ++ rest =
    [ (FXOS8700_REGISTER_CTRL_REG1, 0);
      (FXOS8700_REGISTER_XYZ_DATA_CFG,
       match requested_range gs with Some rg => range_code rg | None => 0 end);
      (FXOS8700_REGISTER_CTRL_REG2, 0x02);
      (FXOS8700_REGISTER_MCTRL_REG1, 0x00);
      (FXOS8700_REGISTER_CTRL_REG1, 0x05) ].
Proof.
  rewrite construct_verbose.
  pose proof (construct_outcomes gs bus dv) as O.
  destruct (construct gs bus false dv) as [[u|e] s].
  - destruct O as ((rest & W) & _).
    destruct ((if verbose then bind temperature (fun _ => ret tt) else ret tt) s)
      as [r s'] eqn:T.
    apply verbose_tail in T. destruct T as (_ & _ & T & _).
    exists rest. cbn [snd]. rewrite T. exact W.
  - destruct O as ((rest & W) & _). exists rest. exact W.
Qed.

(** X2.  When a construction ends on a failure of the bus, the call that
    failed is the last thing the driver did: no register is touched after
    a failed read or write. *)
Theorem bus_failure_ends_construction (gs : option Z) (bus : Z)
        (verbose : bool) (dv : Dev) (ev : event) (s : self Dev) :
  construct gs bus verbose dv = (Raise (OSError ev), s) ->
  exists before, trace s = before ++ [ev].
Proof.
  rewrite construct_verbose.
  pose proof (construct_outcomes gs bus dv) as O.
  destruct (construct gs bus false dv) as [[u|e] s0].
  - intros T. apply verbose_step in T.
    destruct T as [(_ & Q & _)|(_ & Tr & _ & [Q|[Q|Q]])]; try discriminate Q.
    inversion Q; subst ev. exists (trace s0). exact Tr.
  - intros Q. inversion Q; subst e s0.
    destruct O as (_ & L & _).
    exists (removelast (trace s)). symmetry. apply L. reflexivity.
Qed.

(** X3.  However a construction ends, the scale on the object agrees with
    the chip: a stored scale is the scale of the requested range, stored by
    one assignment, after the code of that range was written to
    XYZ_DATA_CFG; and with no scale stored, none was ever assigned. *)
Theorem stored_scale_matches_chip (gs : option Z) (bus : Z) (verbose : bool)
        (dv : Dev) :
  let (r, s) := construct gs bus verbose dv in
  match scale s with
  | Some sc =>
      exists rg,
        requested_range gs = Some rg
        /\ sc = range_scale rg
        /\ In (FXOS8700_REGISTER_XYZ_DATA_CFG, range_code rg)
              (writes (trace s))
        /\ scale_sets (trace s) = [sc]
  | None => scale_sets (trace s) = []
  end.
Proof.
  rewrite construct_verbose.
  pose proof (construct_outcomes gs bus dv) as O.
  destruct (construct gs bus false dv) as [[u|e] s0].
  - destruct O as (_ & _ & O & _).
    destruct ((if verbose then bind temperature (fun _ => ret tt) else ret tt) s0)
      as [r s] eqn:T.
    apply verbose_tail in T. destruct T as (T1 & T2 & T3 & _).
    rewrite T1, T2, T3. exact O.
  - destruct O as (_ & _ & O & _). exact O.
Qed.

(** X4.  [verbose] changes nothing up to the last configuration write: a
    construction that fails without it fails the same way with it, and one
    that returns without it goes on, with it, to a single read of the
    temperature register, which can still make the construction raise
    although the chip is configured and active. *)
Theorem verbose_adds_one_read (gs : option Z) (bus : Z) (dv : Dev) :
  match construct gs bus false dv with
  | (Raise e, s) => construct gs bus true dv = (Raise e, s)
  | (Ok _, s) =>
      exists r s',
        construct gs bus true dv = (r, s')
        /\ trace s' = trace s ++ [EvRead8 FXOS8700_REGISTER_TEMPERATURE]
        /\ scale s' = scale s
        /\ (r = Ok tt
            \/ r = Raise (OSError (EvRead8 FXOS8700_REGISTER_TEMPERATURE))
            \/ r = Raise ValueError)
  end.
Proof.
  rewrite (construct_verbose gs bus true dv).
  destruct (construct gs bus false dv) as [[u|e] s]; [|reflexivity].
  destruct (bind temperature (fun _ => ret tt) s) as [r s'] eqn:T.
  exists r, s'. split; [reflexivity|].
  apply (verbose_step true) in T.
  destruct T as [(F & _)|(_ & T)]; [discriminate F|exact T].
Qed.

(** X9.  A construction that has written any register has first opened the
    bus and read 0xC7 from WHO_AM_I: on a bus that does not open, a read
    that fails or any other identity, nothing is written. *)
Theorem no_write_before_identity (gs : option Z) (bus : Z) (verbose : bool)
        (dv : Dev) :
  writes (trace (snd (construct gs bus verbose dv))) <> [] ->
  exists dv1 dv2,
    bus_open FXOS8700_ADDRESS bus dv = (Some tt, dv1)
    /\ bus_read8 FXOS8700_REGISTER_WHO_AM_I dv1 = (Some 0xC7, dv2).
Proof.
  rewrite construct_verbose.
  pose proof (construct_outcomes gs bus dv) as O.
  destruct (construct gs bus false dv) as [[u|e] s].
  - destruct O as (_ & _ & _ & O).
    destruct ((if verbose then bind temperature (fun _ => ret tt) else ret tt) s)
      as [r s'] eqn:T.
    apply verbose_tail in T. destruct T as (_ & _ & T & _).
    cbn [snd]. rewrite T. exact O.
  - destruct O as (_ & _ & _ & O). exact O.
Qed.

End EveryConstruction.

(** ** Every call of a method *)

Section EveryCall.

Context {Dev : Type} `{I2C Dev}.

Lemma call_method_trace (m : method) (s : self Dev) :
  trace (snd (call_method m s)) = trace s ++ [bus_read_of m].
Proof.
  destruct m; unfold call_method.
  - destruct (bus_read8 FXOS8700_REGISTER_TEMPERATURE (dev s))
      as [[b|] dv] eqn:R.
    + rewrite (temperature_returns s b dv R).
      destruct (bytearray [b]) as [bytes|e];
        [destruct (struct_unpack_b bytes)|]; reflexivity.
    + rewrite (temperature_bus_raises s dv R). reflexivity.
  - destruct (bus_read_block 0x1 12 (dev s)) as [[data|] dv] eqn:R.
    + rewrite (get_returns s data dv R).
      destruct (bytearray data) as [bytes|e];
        [destruct (struct_unpack_6h bytes) as [fields|e];
         [destruct (comprehension _ (firstn 3 fields))|]|]; reflexivity.
    + rewrite (get_bus_raises s dv R). reflexivity.
Qed.

(** X5.  Each call of [temperature] or [get], whether it returns or raises
    and whatever was called before, is exactly one read on the bus: the
    register read for [temperature], the 12-byte burst from 0x01 for [get].
    Nothing is cached, nothing is written, the scale is left alone. *)
Theorem each_call_is_one_read (ms : list method) (s : self Dev) :
  let (os, s') := call_methods ms s in
  trace s' = trace s ++ map bus_read_of ms
  /\ writes (trace s') = writes (trace s)
  /\ scale s' = scale s
  /\ length os = length ms.
Proof.
  revert s. induction ms as [|m ms IH]; intros s; cbn [call_methods map].
  - rewrite app_nil_r. auto.
  - pose proof (call_method_trace m s) as Tr.
    pose proof (call_method_effect m s) as E.
    destruct (call_method m s) as [o s1]. cbn [snd] in Tr.
    destruct E as (E1 & _ & E3 & _).
    specialize (IH s1). destruct (call_methods ms s1) as [os s2].
    destruct IH as (I1 & I2 & I3 & I4).
    rewrite I2, I3, E1, E3, I1, Tr, <- app_assoc. cbn [app length].
    rewrite I4. auto.
Qed.

End EveryCall.

(** ** Every sample *)

(** All 16384 samples, at each of the three scales: inside the full scale,
    with the sign of the sample. *)
Lemma accelerations_checked (rg : RangeSetting) :
  forallb
    (fun q => sample_in_range (range_g rg) q
                (PrimFloat.mul (float_of_int q) (range_scale rg)))
    (Z_interval (-8192) (Z.to_nat 16384)) = true.
Proof. destruct rg; vm_cast_no_check (eq_refl true). Qed.

(** All 65536 magnetometer fields: inside 3276.8 microtesla, with the sign
    of the field. *)
Lemma magnetic_fields_checked :
  forallb
    (fun v => sample_in_range 3276.8%float v
                (PrimFloat.mul (float_of_int v) MAG_UT_LSB))
    (Z_interval (-32768) (Z.to_nat 65536)) = true.
Proof. vm_cast_no_check (eq_refl true). Qed.

(** All 16384 samples: the sample [q] at the range [rg] and the sample
    [range_factor rg * q] at 2G are the same acceleration. *)
Lemma ranges_checked (rg : RangeSetting) :
  forallb
    (fun q => PrimFloat.eqb
                (PrimFloat.mul (float_of_int (range_factor rg * q))
                   ACCEL_MG_LSB_2G)
                (PrimFloat.mul (float_of_int q) (range_scale rg)))
    (Z_interval (-8192) (Z.to_nat 16384)) = true.
Proof. destruct rg; vm_cast_no_check (eq_refl true). Qed.

Lemma sample_of_field (raw : Z) :
  -32768 <= raw <= 32767 ->
  In (raw / 4) (Z_interval (-8192) (Z.to_nat 16384)).
Proof.
  intros B. apply Z_interval_In. rewrite Z2Nat.id by lia.
  Z.div_mod_to_equations. lia.
Qed.

Lemma field_of_interval (raw : Z) :
  -32768 <= raw <= 32767 ->
  In raw (Z_interval (-32768) (Z.to_nat 65536)).
Proof.
  intros B. apply Z_interval_In. rewrite Z2Nat.id by lia. lia.
Qed.

Lemma acceleration_in_range (rg : RangeSetting) (raw : Z) :
  -32768 <= raw <= 32767 ->
  sample_in_range (range_g rg) (raw / 4) (accel_g (range_scale rg) raw) = true.
Proof.
  intros B.
  exact (proj1 (forallb_forall _ _) (accelerations_checked rg)
           (raw / 4) (sample_of_field raw B)).
Qed.

Lemma magnetic_field_in_range (raw : Z) :
  -32768 <= raw <= 32767 ->
  sample_in_range 3276.8%float raw (mag_uT raw) = true.
Proof.
  intros B.
  exact (proj1 (forallb_forall _ _) magnetic_fields_checked
           raw (field_of_interval raw B)).
Qed.

Lemma ranges_agree_on_sample (rg : RangeSetting) (raw2 raw : Z) :
  -32768 <= raw <= 32767 ->
  raw2 / 4 = range_factor rg * (raw / 4) ->
  PrimFloat.eqb (accel_g ACCEL_MG_LSB_2G raw2) (accel_g (range_scale rg) raw)
  = true.
Proof.
  intros B E. unfold accel_g. rewrite E.
  exact (proj1 (forallb_forall _ _) (ranges_checked rg)
           (raw / 4) (sample_of_field raw B)).
Qed.

Section EverySample.

Context {Dev : Type} `{I2C Dev}.

(** X6.  Every acceleration [get] returns lies inside the full scale of
    the range whose scale is stored (from minus the full scale, included, up
    to the full scale, excluded) and has the sign of its 14-bit sample:
    negative below zero, 0.0 at zero, positive above. *)
Theorem acceleration_within_full_scale (s : self Dev) (rg : RangeSetting)
        (dv : Dev) (b0 b1 b2 b3 b4 b5 b6 b7 b8 b9 b10 b11 : Z) :
  scale s = Some (range_scale rg) ->
  bus_read_block 0x1 12 (dev s) =
    (Some [b0; b1; b2; b3; b4; b5; b6; b7; b8; b9; b10; b11], dv) ->
  Forall is_byte [b0; b1; b2; b3; b4; b5; b6; b7; b8; b9; b10; b11] ->
  exists ax ay az mag s',
    get s = (Ok ([ax; ay; az], mag), s')
    /\ sample_in_range (range_g rg) (field16 b0 b1 / 4) ax = true
    /\ sample_in_range (range_g rg) (field16 b2 b3 / 4) ay = true
    /\ sample_in_range (range_g rg) (field16 b4 b5 / 4) az = true.
Proof.
  intros S R F.
  rewrite (get_decodes s _ dv _ _ _ _ _ _ _ _ _ _ _ _ S R F).
  do 5 eexists. split; [reflexivity|].
  repeat match goal with
         | F : Forall _ (_ :: _) |- _ => inversion F; clear F; subst
         end.
  repeat split; apply acceleration_in_range; apply field16_spec; assumption.
Qed.

(** X7.  Every magnetic field [get] returns lies within 3276.8 microtesla
    either way and has the sign of its 16-bit field. *)
Theorem magnetic_field_within_bounds (s : self Dev) (sc : float)
        (dv : Dev) (b0 b1 b2 b3 b4 b5 b6 b7 b8 b9 b10 b11 : Z) :
  scale s = Some sc ->
  bus_read_block 0x1 12 (dev s) =
    (Some [b0; b1; b2; b3; b4; b5; b6; b7; b8; b9; b10; b11], dv) ->
  Forall is_byte [b0; b1; b2; b3; b4; b5; b6; b7; b8; b9; b10; b11] ->
  exists accel mx my mz s',
    get s = (Ok (accel, [mx; my; mz]), s')
    /\ sample_in_range 3276.8%float (field16 b6 b7) mx = true
    /\ sample_in_range 3276.8%float (field16 b8 b9) my = true
    /\ sample_in_range 3276.8%float (field16 b10 b11) mz = true.
Proof.
  intros S R F.
  rewrite (get_decodes s _ dv _ _ _ _ _ _ _ _ _ _ _ _ S R F).
  do 5 eexists. split; [reflexivity|].
  repeat match goal with
         | F : Forall _ (_ :: _) |- _ => inversion F; clear F; subst
         end.
  repeat split; apply magnetic_field_in_range; apply field16_spec; assumption.
Qed.

(** X8.  The three scales agree with one another: when a driver at the
    range [rg] reads samples and a driver at 2G reads the same samples
    multiplied by the ratio of the two full scales (1, 2 or 4), the two
    return equal accelerations. *)
Theorem ranges_agree (s2 s : self Dev) (rg : RangeSetting)
        (data2 data : list Z) (dv2 dv : Dev) :
  scale s2 = Some ACCEL_MG_LSB_2G -> scale s = Some (range_scale rg) ->
  bus_read_block 0x1 12 (dev s2) = (Some data2, dv2) ->
  bus_read_block 0x1 12 (dev s) = (Some data, dv) ->
  length data2 = 12%nat -> length data = 12%nat ->
  Forall is_byte data2 -> Forall is_byte data ->
  (forall i, (i < 3)%nat ->
     Z.shiftr (nth i (be_shorts data2) 0) 2 =
     range_factor rg * Z.shiftr (nth i (be_shorts data) 0) 2) ->
  exists accel2 mag2 s2' accel mag s',
    get s2 = (Ok (accel2, mag2), s2')
    /\ get s = (Ok (accel, mag), s')
    /\ Forall2 (fun a2 a => PrimFloat.eqb a2 a = true) accel2 accel.
Proof.
  intros S2 S R2 R L2 L F2 F A.
  do 13 (destruct data2 as [|? data2]; try discriminate L2).
  do 13 (destruct data as [|? data]; try discriminate L).
  rewrite (get_decodes s2 _ dv2 _ _ _ _ _ _ _ _ _ _ _ _ S2 R2 F2).
  rewrite (get_decodes s _ dv _ _ _ _ _ _ _ _ _ _ _ _ S R F).
  do 6 eexists. split; [reflexivity|]. split; [reflexivity|].
  pose proof (A 0%nat ltac:(lia)) as A0.
  pose proof (A 1%nat ltac:(lia)) as A1.
  pose proof (A 2%nat ltac:(lia)) as A2.
  cbn [be_shorts nth] in A0, A1, A2.
  repeat match goal with
         | F : Forall _ (_ :: _) |- _ => inversion F; clear F; subst
         end.
  rewrite !field16_bytes, !shiftr_2_div_4 in A0, A1, A2 by assumption.
  repeat constructor; apply ranges_agree_on_sample;
    solve [assumption | apply field16_spec; assumption].
Qed.

End EverySample.

(** ** When a construction returns, when [get] returns *)

Section Returns.

Context {Dev : Type} `{I2C Dev}.

Lemma bytearray_ok_bytes (data bytes : list Z) :
  bytearray data = Ok bytes -> Forall is_byte data.
Proof.
  unfold bytearray.
  destruct (forallb (fun b => (0 <=? b) && (b <? 256)) data) eqn:F;
    [|discriminate].
  intros _. apply Forall_forall. intros b Hb.
  rewrite forallb_forall in F. specialize (F b Hb).
  apply andb_prop in F. destruct F as (F1 & F2).
  apply Z.leb_le in F1. apply Z.ltb_lt in F2. unfold is_byte. lia.
Qed.

(** X10.  On a bus that opens, answers 0xC7 at WHO_AM_I, accepts every
    write and, when [verbose] is asked for, reads a byte from the
    temperature register, the construction for a supported range returns
    and stores the scale of that range. *)
Theorem construction_returns_on_a_sound_bus (gs : option Z) (bus : Z)
        (verbose : bool) (dv dv1 dv2 : Dev) (rg : RangeSetting) :
  (forall reg v d, fst (bus_write8 reg v d) = Some tt) ->
  (verbose = true ->
   forall d, exists b,
     is_byte b /\ fst (bus_read8 FXOS8700_REGISTER_TEMPERATURE d) = Some b) ->
  bus_open FXOS8700_ADDRESS bus dv = (Some tt, dv1) ->
  bus_read8 FXOS8700_REGISTER_WHO_AM_I dv1 = (Some 0xC7, dv2) ->
  requested_range gs = Some rg ->
  exists s,
    construct gs bus verbose dv = (Ok tt, s)
    /\ scale s = Some (range_scale rg).
Proof.
  intros Wr Te O R G.
  assert (C : exists s0, construct gs bus false dv = (Ok tt, s0)
                         /\ scale s0 = Some (range_scale rg)).
  { assert (Acc : forall reg v d dv', bus_write8 reg v d <> (None, dv')).
    { intros reg v d dv' E. specialize (Wr reg v d). rewrite E in Wr.
      discriminate Wr. }
    run_init. rewrite O. cbn [after_call dev scale trace app]. rewrite R.
    cbn [Z.eqb Pos.eqb FXOS8700_ID negb after_call dev scale trace app].
    next_call; [|exfalso; eapply Acc; eassumption].
    destruct (requested_range_cases gs)
      as [(C2 & Q)|[(C2 & C4 & Q)|[(C2 & C4 & C8 & Q)|(C2 & C4 & C8 & Q & _)]]];
      rewrite ?C2, ?C4, ?C8; cbn [after_call dev scale trace app];
      rewrite Q in G; try discriminate G; inversion G; subst rg;
      do 4 (next_call; try (exfalso; eapply Acc; eassumption));
      eexists; split; reflexivity. }
  destruct C as (s0 & C & S).
  rewrite construct_verbose, C.
  destruct verbose; [|exists s0; split; [reflexivity|exact S]].
  unfold bind, ret.
  destruct (Te eq_refl (dev s0)) as (b & Bb & E).
  destruct (bus_read8 FXOS8700_REGISTER_TEMPERATURE (dev s0)) as [r dvt] eqn:T.
  cbn [fst] in E. subst r.
  rewrite (temperature_returns s0 b dvt T).
  rewrite bytearray_bytes by (constructor; [exact Bb|constructor]).
  cbn [struct_unpack_b].
  eexists. split; [reflexivity|]. exact S.
Qed.

(** X11.  [get] returns only on a complete burst: when it returns, the bus
    has delivered exactly 12 values, each a byte, the scale is set, and each
    of the two tuples returned has exactly three components. *)
Theorem get_returns_only_on_full_burst (s s' : self Dev)
        (accel mag : list float) :
  get s = (Ok (accel, mag), s') ->
  exists data dv sc,
    bus_read_block 0x1 12 (dev s) = (Some data, dv)
    /\ length data = 12%nat
    /\ Forall is_byte data
    /\ scale s = Some sc
    /\ length accel = 3%nat
    /\ length mag = 3%nat
    /\ s' = after_call (EvReadBlock 0x1 12) dv s.
Proof.
  destruct (bus_read_block 0x1 12 (dev s)) as [[data|] dv] eqn:R.
  - rewrite (get_returns s data dv R).
    destruct (bytearray data) as [bytes|e] eqn:B; [|discriminate].
    pose proof (bytearray_ok_bytes _ _ B) as F.
    rewrite (bytearray_inv _ _ B).
    unfold struct_unpack_6h.
    destruct (Nat.eqb_spec (length data) 12) as [L|L]; [|discriminate].
    destruct (scale s) as [sc|] eqn:S.
    + rewrite comprehension_scaled.
      intros Q. inversion Q; subst.
      exists data, dv, sc.
      do 13 (destruct data as [|? data]; try discriminate L).
      repeat split; auto.
    + do 13 (destruct data as [|? data]; try discriminate L).
      cbn. discriminate.
  - rewrite (get_bus_raises s dv R). discriminate.
Qed.

End Returns.

Lemma construction_returns_on_a_sound_bus_chip :
  exists s,
    construct (Some 8) 1 false chip = (Ok tt, s)
    /\ scale s = Some (range_scale Range8G).
Proof.
  apply (construction_returns_on_a_sound_bus (Some 8) 1 false chip chip chip
           Range8G).
  - intros reg v d. reflexivity.
  - intros V. discriminate V.
  - reflexivity.
  - reflexivity.
  - reflexivity.
Defined.

Lemma get_returns_only_on_full_burst_chip :
  exists data dv sc,
    bus_read_block 0x1 12 (dev (constructed chip)) = (Some data, dv)
    /\ length data = 12%nat
    /\ Forall is_byte data
    /\ scale (constructed chip) = Some sc
    /\ length [accel_g ACCEL_MG_LSB_2G (field16 0x01 0x90);
               accel_g ACCEL_MG_LSB_2G (field16 0xFE 0x70);
               accel_g ACCEL_MG_LSB_2G (field16 0x00 0x00)] = 3%nat
    /\ length [mag_uT (field16 0x03 0xE8); mag_uT (field16 0xFC 0x18);
               mag_uT (field16 0x00 0x00)] = 3%nat
    /\ snd (get (constructed chip)) =
       after_call (EvReadBlock 0x1 12) dv (constructed chip).
Proof.
  apply (get_returns_only_on_full_burst (constructed chip)
           (snd (get (constructed chip)))).
  reflexivity.
Defined.

(** ** These theorems at work on the mock devices *)

Lemma bus_failure_ends_construction_stuck :
  exists before,
    trace (snd (construct None 1 false chip_stuck)) =
    before ++ [EvWrite8 FXOS8700_REGISTER_CTRL_REG2 0x02].
Proof.
  apply (bus_failure_ends_construction None 1 false chip_stuck
           (EvWrite8 FXOS8700_REGISTER_CTRL_REG2 0x02)).
  reflexivity.
Defined.

Lemma no_write_before_identity_chip :
  exists dv1 dv2,
    bus_open FXOS8700_ADDRESS 1 chip = (Some tt, dv1)
    /\ bus_read8 FXOS8700_REGISTER_WHO_AM_I dv1 = (Some 0xC7, dv2).
Proof.
  apply (no_write_before_identity (Some 3) 1 false chip).
  cbn. discriminate.
Defined.

Lemma chip_4g_block_bytes :
  Forall is_byte [0x00; 0xC8; 0xFF; 0x38; 0x00; 0x00;
                  0x03; 0xE8; 0xFC; 0x18; 0x00; 0x00].
Proof. repeat constructor; unfold is_byte; lia. Defined.

Lemma acceleration_within_full_scale_chip :
  exists ax ay az mag s',
    get (constructed chip) = (Ok ([ax; ay; az], mag), s')
    /\ sample_in_range (range_g Range2G) (field16 0x01 0x90 / 4) ax = true
    /\ sample_in_range (range_g Range2G) (field16 0xFE 0x70 / 4) ay = true
    /\ sample_in_range (range_g Range2G) (field16 0x00 0x00 / 4) az = true.
Proof.
  apply (acceleration_within_full_scale (constructed chip) Range2G
           (dev (constructed chip))
           0x01 0x90 0xFE 0x70 0x00 0x00 0x03 0xE8 0xFC 0x18 0x00 0x00).
  - reflexivity.
  - reflexivity.
  - exact chip_block_bytes.
Defined.

Lemma magnetic_field_within_bounds_chip :
  exists accel mx my mz s',
    get (constructed chip) = (Ok (accel, [mx; my; mz]), s')
    /\ sample_in_range 3276.8%float (field16 0x03 0xE8) mx = true
    /\ sample_in_range 3276.8%float (field16 0xFC 0x18) my = true
    /\ sample_in_range 3276.8%float (field16 0x00 0x00) mz = true.
Proof.
  apply (magnetic_field_within_bounds (constructed chip) ACCEL_MG_LSB_2G
           (dev (constructed chip))
           0x01 0x90 0xFE 0x70 0x00 0x00 0x03 0xE8 0xFC 0x18 0x00 0x00).
  - reflexivity.
  - reflexivity.
  - exact chip_block_bytes.
Defined.

Lemma ranges_agree_chip :
  exists accel2 mag2 s2' accel mag s',
    get (constructed chip) = (Ok (accel2, mag2), s2')
    /\ get (snd (construct (Some 4) 1 false chip_4g)) = (Ok (accel, mag), s')
    /\ Forall2 (fun a2 a => PrimFloat.eqb a2 a = true) accel2 accel.
Proof.
  apply (ranges_agree (constructed chip)
           (snd (construct (Some 4) 1 false chip_4g)) Range4G
           (block chip) (block chip_4g)
           (dev (constructed chip))
           (dev (snd (construct (Some 4) 1 false chip_4g)))).
  - reflexivity.
  - reflexivity.
  - reflexivity.
  - reflexivity.
  - reflexivity.
  - reflexivity.
  - exact chip_block_bytes.
  - exact chip_4g_block_bytes.
  - intros i Hi.
    destruct i as [|[|[|i]]]; [reflexivity | reflexivity | reflexivity | lia].
Defined.

(** The stuck register stops the construction after three writes, with the
    scale already stored. *)
Example construction_on_stuck_chip :
  let (r, s) := construct None 1 false chip_stuck in
  r = Raise (OSError (EvWrite8 FXOS8700_REGISTER_CTRL_REG2 0x02))
  /\ spec_error_of (OSError (EvWrite8 FXOS8700_REGISTER_CTRL_REG2 0x02))
     = Some BusWriteFailed
  /\ writes (trace s) =
     [ (FXOS8700_REGISTER_CTRL_REG1, 0);
       (FXOS8700_REGISTER_XYZ_DATA_CFG, 0);
       (FXOS8700_REGISTER_CTRL_REG2, 0x02) ]
  /\ received (behind (dev s)) =
     [ (FXOS8700_REGISTER_CTRL_REG1, 0);
       (FXOS8700_REGISTER_XYZ_DATA_CFG, 0) ].
Proof. cbn. repeat split; reflexivity. Qed.
